(** * Cell-SPU assembler ([Compiler/assembler.py]): model and properties

    A shallow embedding of the [Assembler] class: the Python string
    primitives it relies on, the opcode table loader [import_map], the
    line parser [interpret_line], the operand encoder ([populate],
    [calculate]) and the driver loop [interpret_input], followed by the
    properties established about them.

    Conventions.
    - A Python [str] is a [string]; a character is an [ascii], read as
      the code point of the same number (code points below 256).
    - A text file being iterated is the list of its lines, each line as
      the iteration yields it (with its newline, when it has one).  The
      source file, the destination file and [debug.out] are taken to be
      three different files.
    - A file opened for writing is the list of the strings passed to
      [write], oldest first.
    - A raising call returns [Raise e]; what was written before stays. *)

From Stdlib Require Import ZArith NArith Ascii String List Lia Bool.
From stdpp Require Import gmap strings.
Import ListNotations.

(* stdpp keeps [simpl] from unfolding string appends; the proofs below
   compute with them. *)
Arguments String.append !s1 s2 : simpl nomatch.

(** ** Python string primitives *)

Module PyStr.

(** [str.isspace] on one character, for code points below 256. *)
Definition isspace (c : ascii) : bool :=
  let n := N_of_ascii c in
  (((9 <=? n) && (n <=? 13)) || ((28 <=? n) && (n <=? 32))
   || (n =? 133) || (n =? 160))%N.

(** [s.lstrip(chars)], the characters to drop given as a predicate. *)
Fixpoint lstrip_with (p : ascii -> bool) (s : string) : string :=
  match s with
  | String c r => if p c then lstrip_with p r else s
  | EmptyString => EmptyString
  end.

(** [s.rstrip(chars)]. *)
Fixpoint rstrip_with (p : ascii -> bool) (s : string) : string :=
  match s with
  | EmptyString => EmptyString
  | String c r =>
      match rstrip_with p r with
      | EmptyString => if p c then EmptyString else String c EmptyString
      | r' => String c r'
      end
  end.

(** [s.strip()]: whitespace removed at both ends. *)
Definition strip (s : string) : string :=
  rstrip_with isspace (lstrip_with isspace s).

Definition is_char (a : ascii) : ascii -> bool := fun c => Ascii.eqb c a.

(** [s.startswith(p)]. *)
Fixpoint startswith (p s : string) : bool :=
  match p, s with
  | EmptyString, _ => true
  | String a p', String c s' => Ascii.eqb c a && startswith p' s'
  | String _ _, EmptyString => false
  end.

(** [sub in s]. *)
Fixpoint contains (sub s : string) : bool :=
  match s with
  | EmptyString => startswith sub s
  | String _ r => startswith sub s || contains sub r
  end.

(** [s.split(sep)] for a non-empty [sep]: the text is scanned from the
    left, [skip] counting the characters of a separator just matched that
    are still to be passed over. *)
Fixpoint split_go (sep s : string) (skip : nat) : list string :=
  match s with
  | EmptyString => [EmptyString]
  | String c r =>
      match skip with
      | S k => split_go sep r k
      | O =>
          if startswith sep s
          then EmptyString :: split_go sep r (String.length sep - 1)
          else match split_go sep r 0 with
               | piece :: pieces => String c piece :: pieces
               | [] => [String c EmptyString]
               end
      end
  end.

Definition split (sep s : string) : list string := split_go sep s 0.

(** [s.replace(old, new)] for a non-empty [old]. *)
Fixpoint replace_go (old new s : string) (skip : nat) : string :=
  match s with
  | EmptyString => EmptyString
  | String c r =>
      match skip with
      | S k => replace_go old new r k
      | O =>
          if startswith old s
          then new +:+ replace_go old new r (String.length old - 1)
          else String c (replace_go old new r 0)
      end
  end.

Definition replace (old new s : string) : string := replace_go old new s 0.

Fixpoint zeros (n : nat) : string :=
  match n with
  | O => EmptyString
  | S k => String "0" (zeros k)
  end.

(** [s.zfill(width)]: zeros are inserted after a leading sign. *)
Definition zfill (width : nat) (s : string) : string :=
  let n := String.length s in
  if (width <=? n)%nat then s
  else
    match s with
    | String c r =>
        if Ascii.eqb c "+" || Ascii.eqb c "-"
        then String c (zeros (width - n) +:+ r)
        else zeros (width - n) +:+ s
    | EmptyString => zeros (width - n)
    end.

(** Binary digits of a positive number, most significant first. *)
Fixpoint bin_pos (p : positive) (acc : string) : string :=
  match p with
  | xH => String "1" acc
  | xO q => bin_pos q (String "0" acc)
  | xI q => bin_pos q (String "1" acc)
  end.

(** [bin(n)]. *)
Definition bin (n : Z) : string :=
  match n with
  | Z0 => "0b0"
  | Zpos p => "0b" +:+ bin_pos p EmptyString
  | Zneg p => "-0b" +:+ bin_pos p EmptyString
  end.

(** Whitespace as [int(text)] skips it.  The conversion first maps the
    non-ASCII whitespace and digits of the text to ASCII and then scans
    bytes, so of the characters [isspace] accepts the separators 28 to
    31 are not skipped. *)
Definition int_space (c : ascii) : bool :=
  let n := N_of_ascii c in
  (((9 <=? n) && (n <=? 13)) || (n =? 32) || (n =? 133) || (n =? 160))%N.

Fixpoint all_chars (p : ascii -> bool) (s : string) : bool :=
  match s with
  | EmptyString => true
  | String c r => p c && all_chars p r
  end.

(** Value of a character as a digit: 0-9, then a-z and A-Z from ten. *)
Definition digit_value (c : ascii) : option Z :=
  let n := Z.of_N (N_of_ascii c) in
  if (48 <=? n)%Z && (n <=? 57)%Z then Some (n - 48)%Z
  else if (97 <=? n)%Z && (n <=? 122)%Z then Some (n - 87)%Z
  else if (65 <=? n)%Z && (n <=? 90)%Z then Some (n - 55)%Z
  else None.

Definition digit_in (base : Z) (c : ascii) : option Z :=
  match digit_value c with
  | Some d => if (d <? base)%Z then Some d else None
  | None => None
  end.

(** The digit scan of [int]: digits with single underscores between
    them.  Gives the value, the number of digits and the text left; fails
    on a doubled or a trailing underscore. *)
Fixpoint scan_digits (base : Z) (s : string) (prev_us : bool)
    (acc : Z) (n : nat) : option (Z * nat * string) :=
  match s with
  | EmptyString => if prev_us then None else Some (acc, n, EmptyString)
  | String c r =>
      if Ascii.eqb c "_"
      then if prev_us then None else scan_digits base r true acc n
      else match digit_in base c with
           | Some d => scan_digits base r false (acc * base + d)%Z (S n)
           | None => if prev_us then None else Some (acc, n, s)
           end
  end.

Definition take_sign (s : string) : Z * string :=
  match s with
  | String c r =>
      if Ascii.eqb c "+" then (1%Z, r)
      else if Ascii.eqb c "-" then ((-1)%Z, r)
      else (1%Z, s)
  | EmptyString => (1%Z, s)
  end.

(** The [0b] prefix base 2 allows, with the one underscore after it. *)
Definition skip_0b (s : string) : string :=
  match s with
  | String "0" (String c r) =>
      if Ascii.eqb c "b" || Ascii.eqb c "B"
      then match r with
           | String "_" r' => r'
           | _ => r
           end
      else s
  | _ => s
  end.

(** Most decimal digits [int] converts (Python 3.11's default). *)
Definition int_max_str_digits : nat := 4300.

(** [int(s, base)] for base 2 and base 10; [None] is [ValueError]. *)
Definition int_of_str (base : Z) (s : string) : option Z :=
  let '(sign, s2) := take_sign (lstrip_with int_space s) in
  let s3 := if (base =? 2)%Z then skip_0b s2 else s2 in
  if startswith "_" s3 then None
  else
    match scan_digits base s3 false 0%Z 0%nat with
    | None => None
    | Some (v, n, rest) =>
        if (n =? 0)%nat then None
        else if negb (base =? 2)%Z && (int_max_str_digits <? n)%nat then None
        else if all_chars int_space rest then Some (sign * v)%Z
        else None
    end.

(** The binary digits of a positive number, least significant first. *)
Fixpoint pos_bits (p : positive) : list bool :=
  match p with
  | xH => [true]
  | xO q => false :: pos_bits q
  | xI q => true :: pos_bits q
  end.

(** The upper-case hexadecimal digit of four binary digits. *)
Definition hex_char (b0 b1 b2 b3 : bool) : ascii :=
  let n := (Nat.b2n b0 + 2 * Nat.b2n b1 + 4 * Nat.b2n b2 + 8 * Nat.b2n b3)%nat in
  match String.get n "0123456789ABCDEF" with
  | Some c => c
  | None => "0"%char
  end.

(** The hexadecimal digits of a number given by its binary digits, four
    at a time from the least significant. *)
Fixpoint hex_of_bits (bs : list bool) (acc : string) : string :=
  match bs with
  | b0 :: b1 :: b2 :: b3 :: r => hex_of_bits r (String (hex_char b0 b1 b2 b3) acc)
  | [] => acc
  | b0 :: r =>
      String (hex_char b0 (nth 0 r false) (nth 1 r false) false) acc
  end.

Definition hex_pos (p : positive) : string := hex_of_bits (pos_bits p) EmptyString.

(** [format(n, "0" + str(width) + "X")]: the zeros go after the sign. *)
Definition format_0X (width : nat) (n : Z) : string :=
  match n with
  | Z0 => zeros (width - 1) +:+ "0"
  | Zpos p => zeros (width - String.length (hex_pos p)) +:+ hex_pos p
  | Zneg p => String "-" (zeros (width - 1 - String.length (hex_pos p)) +:+ hex_pos p)
  end.

End PyStr.

(** ** Exceptions *)

Inductive exn : Type := ValueError | IndexError.

Inductive result (A : Type) : Type :=
  | Ok (a : A)
  | Raise (e : exn).

Arguments Ok {A} a.
Arguments Raise {A} e.

Definition bind {A B : Type} (r : result A) (k : A -> result B) : result B :=
  match r with
  | Ok a => k a
  | Raise e => Raise e
  end.

Notation "'let*' x ':=' r 'in' k" := (bind r (fun x => k))
  (at level 10, x name, r at level 100, k at level 200).

(** [l[i]]. *)
Definition item (i : nat) (l : list string) : result string :=
  match nth_error l i with
  | Some x => Ok x
  | None => Raise IndexError
  end.

(** [int(text)]. *)
Definition py_int (text : string) : result Z :=
  match PyStr.int_of_str 10 text with
  | Some n => Ok n
  | None => Raise ValueError
  end.

(** ** The assembler *)

Module Assembler.
Import PyStr.

Definition tab : string := String "009" EmptyString.
Definition newline : string := String "010" EmptyString.

(** What [self.log_severity] holds: the [debug] argument of the
    constructor, a [bool] when it comes from the command line. *)
Inductive severity : Type :=
  | SevBool (b : bool)
  | SevInt (n : Z).

(** [self.log_severity == 2]; as a number [True] is 1 and [False] 0. *)
Definition severity_is_2 (v : severity) : bool :=
  match v with
  | SevBool b => (Z.b2z b =? 2)%Z
  | SevInt n => (n =? 2)%Z
  end.

(** The mnemonic and the bit pattern one line of the instruction list
    defines (lines 16 to 18). *)
Definition definition_of (text_line : string) : result (string * string) :=
  match split tab (strip text_line) with
  | [operation; operation_code] =>
      let* mnemonic := item 0 (split " " operation) in
      let operation_code := strip operation_code in
      Ok (mnemonic, operation_code)
  | _ => Raise ValueError
  end.

(** [import_map], from the table built so far. *)
Fixpoint import_map (dict : gmap string string) (instruction_list : list string)
    : result (gmap string string) :=
  match instruction_list with
  | [] => Ok dict
  | text_line :: rest =>
      let* d := definition_of text_line in
      import_map (<[d.1 := d.2]> dict) rest
  end.

Definition interpret_line (text_line : string) : result (list string) :=
  let* code := item 0 (split "//" (strip text_line)) in
  Ok (split " " (strip code)).

Definition populate (sequence : string) (span : nat) : string :=
  let sequence := zfill span (lstrip_with (is_char "-") sequence) in
  if startswith "-" sequence
  then String "1" (match sequence with String _ r => r | EmptyString => EmptyString end)
  else sequence.

(** [self.populate(bin(n).replace("0b", ""), span)]: the field of an
    operand value. *)
Definition signed_field (n : Z) (span : nat) : string :=
  populate (replace "0b" "" (bin n)) span.

(** [self.populate(bin(int(text)).replace("0b", ""), 7)]. *)
Definition field (text : string) : result string :=
  let* n := py_int text in
  Ok (signed_field n 7).

(** The body of the loop of [calculate]: the bits one operand adds. *)
Definition operand_bits (op : string) : result string :=
  if contains "(" op && contains ")" op then
    let* reg_offset := item 0 (split "(" op) in
    let* piece := item 1 (split "(" op) in
    let offset := rstrip_with (is_char ")") piece in
    let* reg_binary := field reg_offset in
    let* offset_binary := field offset in
    Ok (reg_binary +:+ offset_binary)
  else
    field op.

Fixpoint calculate_loop (instruction_binary : string) (ops : list string)
    : result string :=
  match ops with
  | [] => Ok instruction_binary
  | op :: rest =>
      let* bits := operand_bits op in
      calculate_loop (instruction_binary +:+ bits) rest
  end.

Definition calculate (operation_code : string) (operation : list string)
    : result string :=
  let* instruction_binary := calculate_loop operation_code (tl operation) in
  Ok (zfill 32 instruction_binary).

(** The two files [interpret_input] writes. *)
Record files : Type := Files {
  output_file : list string;
  data_object : list string
}.

Definition write_output (f : files) (text : string) : files :=
  Files (output_file f ++ [text]) (data_object f).

Definition write_data (f : files) (text : string) : files :=
  Files (output_file f) (data_object f ++ [text]).

Definition fallback_opcode : string := "00000000000".

(** How one turn of the loop of [interpret_input] ends. *)
Inductive turn : Type :=
  | Next (f : files)
  | Break
  | Abort (f : files) (e : exn).

(** The diagnostic record of a line. *)
Definition diagnostic (log_severity : severity) (binary text_line : string)
    : result string :=
  if severity_is_2 log_severity then
    match int_of_str 2 binary with
    | Some n =>
        let o_hex := "0x" +:+ format_0X 8 n in
        Ok (binary +:+ tab +:+ o_hex +:+ tab +:+ text_line)
    | None => Raise ValueError
    end
  else Ok (binary +:+ tab +:+ text_line).

(** One turn of the loop of [interpret_input] (lines 29 to 40). *)
Definition interpret_turn (dict : gmap string string) (log_severity : severity)
    (text_line : string) (f : files) : turn :=
  match (let* operation := interpret_line text_line in
         let* mnemonic := item 0 operation in
         Ok (operation, mnemonic)) with
  | Raise e => Abort f e
  | Ok (operation, mnemonic) =>
      if contains "stop" mnemonic then Break
      else
        let operation_code := default fallback_opcode (dict !! mnemonic) in
        match calculate operation_code operation with
        | Raise e => Abort f e
        | Ok binary =>
            let f := write_output f (binary +:+ newline) in
            match diagnostic log_severity binary text_line with
            | Raise e => Abort f e
            | Ok record => Next (write_data f record)
            end
        end
  end.

(** The loop of [interpret_input]: the files as they are left, and the
    exception that ended the loop if one did.  [break] and the end of the
    source both leave with [None]. *)
Fixpoint interpret_loop (dict : gmap string string) (log_severity : severity)
    (instruction_list : list string) (f : files) : files * option exn :=
  match instruction_list with
  | [] => (f, None)
  | text_line :: rest =>
      match interpret_turn dict log_severity text_line f with
      | Next f' => interpret_loop dict log_severity rest f'
      | Break => (f, None)
      | Abort f' e => (f', Some e)
      end
  end.

Definition interpret_input (dict : gmap string string) (log_severity : severity)
    (source_file : list string) : files * option exn :=
  interpret_loop dict log_severity source_file (Files [] []).

(** The script: build the table ([__init__]), then run.  A table that
    fails to load raises before any file is opened for writing. *)
Definition main (debug : bool) (instruction_list source_file : list string)
    : result (files * option exn) :=
  let* dict := import_map ∅ instruction_list in
  Ok (interpret_input dict (SevBool debug) source_file).

End Assembler.

(** ** Notions used in the statements *)

Module Notions.
Import PyStr Assembler.

Definition is_bit (c : ascii) : bool := Ascii.eqb c "0" || Ascii.eqb c "1".

(** A sign character, as [zfill] looks for one. *)
Definition is_sign (c : ascii) : bool := Ascii.eqb c "+" || Ascii.eqb c "-".

Definition head_is (p : ascii -> bool) (s : string) : bool :=
  match s with
  | String c _ => p c
  | EmptyString => false
  end.

(** The binary digits of the magnitude of a number. *)
Definition magnitude (n : Z) : string :=
  match n with
  | Z0 => "0"
  | Zpos p | Zneg p => bin_pos p ""
  end.

(** How many binary digits the magnitude has. *)
Definition binary_digits (n : Z) : nat :=
  match n with
  | Z0 => 1
  | Zpos p | Zneg p => Pos.size_nat p
  end.

(** The fields of the operands, one after the other. *)
Definition join (fields : list string) : string :=
  fold_right String.append EmptyString fields.

(** The width of the field of a value: seven characters, more when the
    magnitude has more binary digits. *)
Definition field_width (n : Z) : nat := Nat.max 7 (binary_digits n).

Definition fields_width (vals : list Z) : nat := list_sum (map field_width vals).

(** A word of the output: 32 characters, each 0 or 1. *)
Definition is_word32 (w : string) : Prop :=
  String.length w = 32%nat /\ all_chars is_bit w = true.

(** The text before the first [sep], all of it when there is none. *)
Fixpoint before (sep s : string) : string :=
  match s with
  | EmptyString => EmptyString
  | String c r => if startswith sep s then EmptyString else String c (before sep r)
  end.

(** The last character is [a]. *)
Fixpoint ends_with (a : ascii) (s : string) : bool :=
  match s with
  | EmptyString => false
  | String c EmptyString => Ascii.eqb c a
  | String _ r => ends_with a r
  end.

(** An empty or comment-only line: nothing but whitespace before the
    end of the line or before a [//]. *)
Definition comment_only (text_line : string) : bool :=
  let s := strip text_line in
  String.eqb s "" || startswith "//" s.

(** The mnemonic parsed from the line contains [stop]. *)
Definition stops (text_line : string) : bool :=
  match interpret_line text_line with
  | Ok (mnemonic :: _) => contains "stop" mnemonic
  | _ => false
  end.

(** The character [a] does not occur in the text. *)
Definition lacks (a : ascii) (s : string) : bool :=
  all_chars (fun c => negb (Ascii.eqb c a)) s.

(** The text is an integer literal: [int] converts it. *)
Definition int_literal (text : string) : Prop := exists n, py_int text = Ok n.

(** The operand tokens [calculate] does not take.  A token that lacks
    one of the two parentheses must be an integer literal.  A token with
    both is cut at its first [(]: the text before it must be an integer
    literal, and so must the text after it, read up to the next [(] and
    without its closing parentheses. *)
Inductive rejected : string -> Prop :=
  | rejected_plain (op : string) :
      contains "(" op && contains ")" op = false ->
      py_int op = Raise ValueError ->
      rejected op
  | rejected_register (R X : string) :
      lacks "(" R = true ->
      contains ")" (R +:+ String "(" X) = true ->
      py_int R = Raise ValueError ->
      rejected (R +:+ String "(" X)
  | rejected_offset (R X : string) :
      lacks "(" R = true ->
      contains ")" (R +:+ String "(" X) = true ->
      py_int (rstrip_with (is_char ")") (before "(" X)) = Raise ValueError ->
      rejected (R +:+ String "(" X).

(** The number a text of binary digits denotes, read after [acc]. *)
Fixpoint bits_value (s : string) (acc : Z) : Z :=
  match s with
  | EmptyString => acc
  | String c r => bits_value r (2 * acc + (if Ascii.eqb c "1" then 1 else 0))%Z
  end.

(** How many times the character [a] occurs in the text. *)
Fixpoint occurrences (a : ascii) (s : string) : nat :=
  match s with
  | EmptyString => 0
  | String c r => (if Ascii.eqb c a then 1 else 0) + occurrences a r
  end.

(** The files [f] with what [g] holds written after. *)
Definition app_files (f g : files) : files :=
  Files (output_file f ++ output_file g) (data_object f ++ data_object g).

(** The word of a source line: lines 29, 30, 33 and 34 of
    [interpret_input], for a line that does not stop the run. *)
Definition word_of (dict : gmap string string) (text_line : string)
    : result string :=
  let* operation := interpret_line text_line in
  let* mnemonic := item 0 operation in
  calculate (default fallback_opcode (dict !! mnemonic)) operation.

(** The characters an integer literal is made of. *)
Definition int_char (c : ascii) : bool :=
  int_space c || is_sign c || Ascii.eqb c "_"
  || match digit_in 10 c with Some _ => true | None => false end.

End Notions.

(** ** Facts about the string primitives *)

Module StrFacts.
Import PyStr Notions.

Lemma app_empty_r (s : string) : s +:+ "" = s.
Proof. induction s as [|c s IH]; simpl; [reflexivity | now rewrite IH]. Qed.

Lemma app_assoc (a b c : string) : (a +:+ b) +:+ c = a +:+ (b +:+ c).
Proof. induction a as [|x a IH]; simpl; [reflexivity | now rewrite IH]. Qed.

Lemma length_app (a b : string) :
  String.length (a +:+ b) = (String.length a + String.length b)%nat.
Proof. induction a as [|x a IH]; simpl; [reflexivity | now rewrite IH]. Qed.

Lemma length_zeros (n : nat) : String.length (zeros n) = n.
Proof. induction n as [|n IH]; simpl; [reflexivity | now rewrite IH]. Qed.

Lemma all_chars_app (p : ascii -> bool) (a b : string) :
  all_chars p (a +:+ b) = all_chars p a && all_chars p b.
Proof.
  induction a as [|x a IH]; simpl; [reflexivity |].
  rewrite IH. now rewrite andb_assoc.
Qed.

Lemma all_bits_zeros (n : nat) : all_chars is_bit (zeros n) = true.
Proof. induction n as [|n IH]; simpl; [reflexivity | exact IH]. Qed.

Lemma bit_not_sign (c : ascii) : is_bit c = true -> is_sign c = false.
Proof.
  unfold is_bit, is_sign. intros H.
  apply orb_true_iff in H as [H | H]; apply Ascii.eqb_eq in H; subst c; reflexivity.
Qed.

(** *** [zfill] *)

Lemma zfill_unsigned (w : nat) (s : string) :
  head_is is_sign s = false ->
  zfill w s = zeros (w - String.length s) +:+ s.
Proof.
  intros Hs. unfold zfill.
  destruct (Nat.leb_spec w (String.length s)) as [Hle | Hlt].
  - replace (w - String.length s)%nat with 0%nat by lia. reflexivity.
  - destruct s as [|c r]; simpl in *.
    + now rewrite app_empty_r.
    + unfold is_sign in Hs. now rewrite Hs.
Qed.

Lemma all_bits_unsigned (s : string) :
  all_chars is_bit s = true -> head_is is_sign s = false.
Proof.
  destruct s as [|c r]; simpl; [reflexivity |].
  intros H. apply andb_true_iff in H as [H _]. now apply bit_not_sign.
Qed.

Lemma zfill_bits (w : nat) (s : string) :
  all_chars is_bit s = true -> all_chars is_bit (zfill w s) = true.
Proof.
  intros H. rewrite zfill_unsigned by now apply all_bits_unsigned.
  now rewrite all_chars_app, all_bits_zeros, H.
Qed.

(** *** [bin] and [replace] *)

Lemma bin_pos_bits (p : positive) (acc : string) :
  all_chars is_bit acc = true -> all_chars is_bit (bin_pos p acc) = true.
Proof.
  revert acc. induction p as [p IH | p IH |]; intros acc H; simpl.
  - apply IH. simpl. exact H.
  - apply IH. simpl. exact H.
  - exact H.
Qed.

Lemma bin_pos_length (p : positive) (acc : string) :
  String.length (bin_pos p acc) = (Pos.size_nat p + String.length acc)%nat.
Proof.
  revert acc. induction p as [p IH | p IH |]; intros acc; simpl.
  - rewrite IH. simpl. lia.
  - rewrite IH. simpl. lia.
  - reflexivity.
Qed.

Lemma replace_0b_bits (s : string) :
  all_chars is_bit s = true -> replace "0b" "" s = s.
Proof.
  unfold replace. induction s as [|c r IH]; simpl; [reflexivity |].
  intros H. apply andb_true_iff in H as [Hc Hr].
  destruct r as [|c' r'].
  - now rewrite andb_false_r.
  - assert (Hb : Ascii.eqb c' "b" = false).
    { simpl in Hr. apply andb_true_iff in Hr as [Hc' _].
      unfold is_bit in Hc'.
      apply orb_true_iff in Hc' as [H | H]; apply Ascii.eqb_eq in H; now subst c'. }
    specialize (IH Hr). simpl in IH.
    rewrite Hb, andb_false_r. simpl. now rewrite IH.
Qed.

Lemma magnitude_bits (n : Z) : all_chars is_bit (magnitude n) = true.
Proof. destruct n; simpl; [reflexivity | | ]; now apply bin_pos_bits. Qed.

Lemma magnitude_length (n : Z) : String.length (magnitude n) = binary_digits n.
Proof.
  destruct n; simpl; [reflexivity | | ]; rewrite bin_pos_length; simpl; lia.
Qed.

Lemma binary_digits_small (n : Z) : (Z.abs n < 128)%Z -> (binary_digits n <= 7)%nat.
Proof.
  assert (Hp : forall p, (Z.pos p < 128)%Z -> (Pos.size_nat p <= 7)%nat).
  { intros p H. destruct (Pos.eq_dec p 127%positive) as [-> | Hne]; [reflexivity |].
    change 7%nat with (Pos.size_nat 127%positive).
    apply Pos.size_nat_monotone. lia. }
  destruct n as [|p|p]; simpl; intros H; [lia | | ]; now apply Hp.
Qed.

End StrFacts.

(** ** Facts about the operand fields *)

Module FieldFacts.
Import PyStr Assembler Notions StrFacts.

Lemma all_bits_no_minus (s : string) :
  all_chars is_bit s = true -> startswith "-" s = false.
Proof.
  destruct s as [|c r]; simpl; [reflexivity |].
  intros H. apply andb_true_iff in H as [H _].
  apply bit_not_sign in H. unfold is_sign in H.
  apply orb_false_iff in H as [_ H]. now rewrite H.
Qed.

Lemma lstrip_minus_bits (s : string) :
  all_chars is_bit s = true -> lstrip_with (is_char "-") s = s.
Proof.
  intros H. apply all_bits_no_minus in H.
  destruct s as [|c r]; simpl in *; [reflexivity |].
  unfold is_char. rewrite andb_true_r in H. now rewrite H.
Qed.

(** What [bin(n).replace("0b", "").lstrip('-')] leaves: the magnitude. *)
Lemma stripped_bin (n : Z) :
  lstrip_with (is_char "-") (replace "0b" "" (bin n)) = magnitude n.
Proof.
  destruct n as [|p|p]; [reflexivity | | ].
  - pose proof (bin_pos_bits p "" eq_refl) as Hb.
    change (replace "0b" "" (bin (Z.pos p))) with (replace "0b" "" (bin_pos p "")).
    rewrite replace_0b_bits by exact Hb.
    now apply lstrip_minus_bits.
  - pose proof (bin_pos_bits p "" eq_refl) as Hb.
    change (replace "0b" "" (bin (Z.neg p)))
      with (String "-" (replace "0b" "" (bin_pos p ""))).
    rewrite replace_0b_bits by exact Hb.
    change (lstrip_with (is_char "-") (String "-" (bin_pos p "")))
      with (lstrip_with (is_char "-") (bin_pos p "")).
    now apply lstrip_minus_bits.
Qed.

(** The field the code builds for a value: the magnitude, zero-filled;
    the sign of the value plays no part. *)
Lemma signed_field_eq (n : Z) (w : nat) :
  signed_field n w = zeros (w - binary_digits n) +:+ magnitude n.
Proof.
  unfold signed_field, populate. rewrite stripped_bin.
  pose proof (magnitude_bits n) as Hb.
  rewrite all_bits_no_minus by now apply zfill_bits.
  rewrite zfill_unsigned by now apply all_bits_unsigned.
  now rewrite magnitude_length.
Qed.

Lemma signed_field_bits (n : Z) (w : nat) :
  all_chars is_bit (signed_field n w) = true.
Proof.
  rewrite signed_field_eq, all_chars_app, all_bits_zeros. apply magnitude_bits.
Qed.

Lemma signed_field_length (n : Z) (w : nat) :
  String.length (signed_field n w) = Nat.max w (binary_digits n).
Proof.
  rewrite signed_field_eq, length_app, length_zeros, magnitude_length. lia.
Qed.

Lemma signed_field_opp (n : Z) (w : nat) :
  signed_field (- n) w = signed_field n w.
Proof. rewrite !signed_field_eq. now destruct n. Qed.

Lemma signed_field_small (n : Z) :
  (Z.abs n < 128)%Z -> String.length (signed_field n 7) = 7%nat.
Proof.
  intros H. rewrite signed_field_length.
  pose proof (binary_digits_small n H). lia.
Qed.

End FieldFacts.

(** ** Facts about [int] *)

Module IntFacts.
Import PyStr Assembler Notions StrFacts.

Lemma lstrip_with_all (q p : ascii -> bool) (s : string) :
  (forall c, p c = true -> q c = true) ->
  all_chars q (lstrip_with p s) = true -> all_chars q s = true.
Proof.
  intros Hpq. induction s as [|c r IH]; simpl; [reflexivity |].
  destruct (p c) eqn:Hc.
  - intros H. rewrite (Hpq c Hc). simpl. now apply IH.
  - simpl. trivial.
Qed.

Lemma take_sign_all (q : ascii -> bool) (s s2 : string) (sg : Z) :
  (forall c, is_sign c = true -> q c = true) ->
  take_sign s = (sg, s2) ->
  all_chars q s2 = true -> all_chars q s = true.
Proof.
  intros Hq. destruct s as [|c r]; simpl.
  - intros [= _ <-]. trivial.
  - unfold is_sign in Hq. specialize (Hq c).
    destruct (Ascii.eqb c "+") eqn:Hp.
    + intros [= _ <-] H. simpl. now rewrite Hq, H.
    + destruct (Ascii.eqb c "-") eqn:Hm.
      * intros [= _ <-] H. simpl. now rewrite Hq, H.
      * intros [= _ <-] H. exact H.
Qed.

Lemma scan_digits_all (q : ascii -> bool) (base : Z) (s : string) :
  q "_"%char = true ->
  (forall c d, digit_in base c = Some d -> q c = true) ->
  forall prev acc n v k rest,
    scan_digits base s prev acc n = Some (v, k, rest) ->
    all_chars q rest = true -> all_chars q s = true.
Proof.
  intros Hus Hd. induction s as [|c r IH]; intros prev acc n v k rest; simpl.
  - trivial.
  - destruct (Ascii.eqb_spec c "_") as [-> | Hne].
    + destruct prev; [discriminate |].
      intros H Hr. rewrite Hus. simpl. eapply IH; eauto.
    + destruct (digit_in base c) as [d|] eqn:Hc.
      * intros H Hr. rewrite (Hd c d Hc). simpl. eapply IH; eauto.
      * destruct prev; [discriminate |].
        intros [= _ _ <-] Hr. exact Hr.
Qed.

Lemma all_chars_weaken (p q : ascii -> bool) (s : string) :
  (forall c, p c = true -> q c = true) ->
  all_chars p s = true -> all_chars q s = true.
Proof.
  intros Hpq. induction s as [|c r IH]; simpl; [trivial |].
  intros H. apply andb_true_iff in H as [Hc Hr].
  now rewrite (Hpq c Hc), IH.
Qed.

(** An integer literal holds nothing but whitespace, signs, underscores
    and decimal digits. *)
Lemma int_literal_chars (text : string) (n : Z) :
  py_int text = Ok n -> all_chars int_char text = true.
Proof.
  unfold py_int, int_of_str.
  destruct (take_sign (lstrip_with int_space text)) as [sg s2] eqn:Hsign.
  change (10 =? 2)%Z with false. cbv iota. 
  destruct (startswith "_" s2); [discriminate |].
  destruct (scan_digits 10 s2 false 0 0) as [[[v k] rest]|] eqn:Hscan; [|discriminate].
  destruct (k =? 0)%nat; [discriminate |].
  destruct (negb false && (int_max_str_digits <? k)%nat); [discriminate |].
  destruct (all_chars int_space rest) eqn:Hrest; [|discriminate].
  intros _.
  apply (lstrip_with_all int_char int_space).
  { intros c Hc. unfold int_char. now rewrite Hc. }
  assert (Hsg : forall c, is_sign c = true -> int_char c = true).
  { intros c Hc. unfold int_char. rewrite Hc.
    now rewrite orb_true_r. }
  apply (take_sign_all int_char _ _ _ Hsg Hsign).
  apply (scan_digits_all int_char 10 s2 eq_refl) with (prev := false) (acc := 0%Z)
    (n := 0%nat) (v := v) (k := k) (rest := rest).
  - intros c d Hc. unfold int_char. rewrite Hc. apply orb_true_r.
  - exact Hscan.
  - apply (all_chars_weaken int_space); [|exact Hrest].
    intros c Hc. unfold int_char. now rewrite Hc.
Qed.

Lemma int_char_no_paren (c : ascii) :
  int_char c = true -> Ascii.eqb c "(" = false /\ Ascii.eqb c ")" = false.
Proof.
  destruct c as [[] [] [] [] [] [] [] []]; vm_compute; intros H;
    first [discriminate H | split; reflexivity].
Qed.

End IntFacts.

(** ** Facts about [split], [in] and [rstrip] with a one-character argument *)

Module SplitFacts.
Import PyStr Assembler Notions StrFacts.

Lemma startswith_char (a c : ascii) (r : string) :
  startswith (String a "") (String c r) = Ascii.eqb c a.
Proof. simpl. apply andb_true_r. Qed.

Lemma split_go_head (sep s : string) :
  exists rest, split_go sep s 0 = before sep s :: rest.
Proof.
  induction s as [|c r [rest IH]].
  - now exists [].
  - cbn [split_go before]. destruct (startswith sep (String c r)).
    + eauto.
    + rewrite IH. eauto.
Qed.

Lemma item_0_split (sep s : string) : item 0 (split sep s) = Ok (before sep s).
Proof. unfold split. destruct (split_go_head sep s) as [rest ->]. reflexivity. Qed.

Lemma contains_lacks (a : ascii) (s : string) :
  contains (String a "") s = negb (lacks a s).
Proof.
  unfold lacks. induction s as [|c r IH]; [reflexivity |].
  cbn [contains all_chars]. rewrite startswith_char, IH.
  now destruct (Ascii.eqb c a).
Qed.

Lemma before_lacks (a : ascii) (s : string) :
  lacks a s = true -> before (String a "") s = s.
Proof.
  unfold lacks. induction s as [|c r IH]; [reflexivity |].
  cbn [before all_chars]. rewrite startswith_char.
  intros H. apply andb_true_iff in H as [Hc Hr].
  apply negb_true_iff in Hc. rewrite Hc. now rewrite IH.
Qed.

Lemma split_lacks (a : ascii) (s : string) :
  lacks a s = true -> split (String a "") s = [s].
Proof.
  unfold lacks, split. induction s as [|c r IH]; [reflexivity |].
  cbn [split_go all_chars]. rewrite startswith_char.
  intros H. apply andb_true_iff in H as [Hc Hr].
  apply negb_true_iff in Hc. rewrite Hc. now rewrite IH.
Qed.

Lemma split_at_char (a : ascii) (R X : string) :
  lacks a R = true ->
  split (String a "") (R +:+ String a X) = R :: split (String a "") X.
Proof.
  unfold lacks, split. induction R as [|c r IH]; intros H.
  - cbn [String.append split_go]. rewrite startswith_char, Ascii.eqb_refl.
    reflexivity.
  - cbn [all_chars] in H. apply andb_true_iff in H as [Hc Hr].
    apply negb_true_iff in Hc.
    cbn [String.append split_go]. rewrite startswith_char, Hc.
    now rewrite IH.
Qed.

Lemma lacks_app (a : ascii) (s t : string) :
  lacks a (s +:+ t) = lacks a s && lacks a t.
Proof. apply all_chars_app. Qed.

(** A text holding [a] splits at its first [a]. *)
Lemma first_occurrence (a : ascii) (s : string) :
  lacks a s = false ->
  exists R X, s = R +:+ String a X /\ lacks a R = true.
Proof.
  unfold lacks. induction s as [|c r IH]; [discriminate |].
  cbn [all_chars]. destruct (Ascii.eqb_spec c a) as [-> | Hne]; simpl.
  - intros _. now exists "", r.
  - intros H. destruct (IH H) as (R & X & -> & HR).
    exists (String c R), X. split; [reflexivity |].
    simpl. apply Ascii.eqb_neq in Hne. now rewrite Hne, HR.
Qed.

Lemma rstrip_closing (a : ascii) (s : string) :
  lacks a s = true -> rstrip_with (is_char a) (s +:+ String a "") = s.
Proof.
  unfold lacks, is_char. induction s as [|c r IH].
  - intros _. simpl. now rewrite Ascii.eqb_refl.
  - cbn [all_chars String.append rstrip_with].
    intros H. apply andb_true_iff in H as [Hc Hr].
    apply negb_true_iff in Hc. rewrite (IH Hr), Hc. now destruct r.
Qed.

End SplitFacts.

(** ** Facts about [calculate] *)

Module OperandFacts.
Import PyStr Assembler Notions StrFacts FieldFacts IntFacts SplitFacts.

Lemma field_literal (text : string) (n : Z) :
  py_int text = Ok n -> field text = Ok (signed_field n 7).
Proof. intros H. unfold field. now rewrite H. Qed.

Lemma field_raise (text : string) (e : exn) :
  field text = Raise e -> e = ValueError /\ py_int text = Raise ValueError.
Proof.
  unfold field, py_int. destruct (int_of_str 10 text); simpl; [discriminate |].
  now intros [= <-].
Qed.

Lemma field_bits (text bits : string) :
  field text = Ok bits -> all_chars is_bit bits = true.
Proof.
  unfold field. destruct (py_int text) as [n|e]; simpl; [|discriminate].
  intros [= <-]. apply signed_field_bits.
Qed.

Lemma literal_lacks_paren (text : string) (n : Z) :
  py_int text = Ok n -> lacks "(" text = true /\ lacks ")" text = true.
Proof.
  intros H. apply int_literal_chars in H.
  split; apply (all_chars_weaken int_char); try exact H;
    intros c Hc; apply int_char_no_paren in Hc as [H1 H2];
    now rewrite ?H1, ?H2.
Qed.

Lemma operand_bits_plain (op : string) :
  contains "(" op && contains ")" op = false -> operand_bits op = field op.
Proof. intros H. unfold operand_bits. now rewrite H. Qed.

Lemma operand_bits_literal (op : string) (n : Z) :
  py_int op = Ok n -> operand_bits op = Ok (signed_field n 7).
Proof.
  intros H. rewrite operand_bits_plain; [now apply field_literal |].
  apply literal_lacks_paren in H as [H _].
  now rewrite contains_lacks, H.
Qed.

(** An operand holding both parentheses, cut at its first [(]: the
    register text is what precedes it, the offset text what follows up to
    the next [(], its closing parentheses dropped. *)
Lemma operand_bits_indexed (R X : string) :
  lacks "(" R = true ->
  contains ")" (R +:+ String "(" X) = true ->
  operand_bits (R +:+ String "(" X) =
    let* reg_binary := field R in
    let* offset_binary := field (rstrip_with (is_char ")") (before "(" X)) in
    Ok (reg_binary +:+ offset_binary).
Proof.
  intros HR Hclose. unfold operand_bits.
  rewrite Hclose, contains_lacks, lacks_app, HR.
  cbn [lacks all_chars negb andb]. rewrite Ascii.eqb_refl.
  cbn [negb andb]. rewrite split_at_char by exact HR.
  change (item 0 (R :: split "(" X)) with (Ok (A := string) R).
  change (item 1 (R :: split "(" X)) with (item 0 (split "(" X)).
  rewrite item_0_split. reflexivity.
Qed.

(** Encoding an operand raises nothing but [ValueError]. *)
Lemma operand_bits_raise (op : string) (e : exn) :
  operand_bits op = Raise e -> e = ValueError.
Proof.
  destruct (contains "(" op && contains ")" op) eqn:Hp.
  - apply andb_true_iff in Hp as [Hopen Hclose].
    rewrite contains_lacks in Hopen. apply negb_true_iff in Hopen.
    destruct (first_occurrence _ _ Hopen) as (R & X & -> & HR).
    rewrite operand_bits_indexed by assumption.
    destruct (field R) as [a|e1] eqn:H1; simpl.
    + destruct (field (rstrip_with (is_char ")") (before "(" X)))
        as [b|e2] eqn:H2; simpl; [discriminate |].
      intros [= <-]. now apply field_raise in H2.
    + intros [= <-]. now apply field_raise in H1.
  - rewrite operand_bits_plain by exact Hp. intros H. now apply field_raise in H.
Qed.

Lemma operand_bits_ok_bits (op bits : string) :
  operand_bits op = Ok bits -> all_chars is_bit bits = true.
Proof.
  destruct (contains "(" op && contains ")" op) eqn:Hp.
  - apply andb_true_iff in Hp as [Hopen Hclose].
    rewrite contains_lacks in Hopen. apply negb_true_iff in Hopen.
    destruct (first_occurrence _ _ Hopen) as (R & X & -> & HR).
    rewrite operand_bits_indexed by assumption.
    destruct (field R) as [a|e1] eqn:H1; simpl; [|discriminate].
    destruct (field (rstrip_with (is_char ")") (before "(" X)))
      as [b|e2] eqn:H2; simpl; [|discriminate].
    intros [= <-]. rewrite all_chars_app.
    now rewrite (field_bits _ _ H1), (field_bits _ _ H2).
  - rewrite operand_bits_plain by exact Hp. apply field_bits.
Qed.

Lemma join_bits (fields : list string) :
  Forall (fun bits => all_chars is_bit bits = true) fields ->
  all_chars is_bit (join fields) = true.
Proof.
  induction 1 as [|x l Hx Hl IH]; simpl; [reflexivity |].
  now rewrite all_chars_app, Hx, IH.
Qed.

Lemma calculate_loop_ok (ops fields : list string) :
  Forall2 (fun op bits => operand_bits op = Ok bits) ops fields ->
  forall acc, calculate_loop acc ops = Ok (acc +:+ join fields).
Proof.
  induction 1 as [|op bits ops fields Hop Hrest IH]; intros acc; simpl.
  - now rewrite app_empty_r.
  - rewrite Hop. simpl. rewrite IH. now rewrite app_assoc.
Qed.

Lemma calculate_loop_raise (ops : list string) (op : string) :
  In op ops -> operand_bits op = Raise ValueError ->
  forall acc, calculate_loop acc ops = Raise ValueError.
Proof.
  induction ops as [|op0 rest IH]; intros Hin Hop acc; [contradiction |].
  simpl. destruct (operand_bits op0) as [bits|e] eqn:H0; simpl.
  - destruct Hin as [-> | Hin]; [congruence |]. now apply IH.
  - now rewrite (operand_bits_raise _ _ H0).
Qed.

Lemma head_app_unsigned (a b : string) :
  head_is is_sign a = false -> all_chars is_bit b = true ->
  head_is is_sign (a +:+ b) = false.
Proof.
  intros Ha Hb. destruct a as [|c r]; simpl; [|exact Ha].
  now apply all_bits_unsigned.
Qed.

End OperandFacts.

(** ** Facts about the parser and the driver *)

Module DriverFacts.
Import PyStr Assembler Notions StrFacts SplitFacts.

Lemma interpret_line_eq (text_line : string) :
  interpret_line text_line
  = Ok (split " " (strip (before "//" (strip text_line)))).
Proof. unfold interpret_line. now rewrite item_0_split. Qed.

(** The line is parsed, and the mnemonic is the text before the first
    space: neither index raises. *)
Lemma parse_eq (text_line : string) :
  (let* operation := interpret_line text_line in
   let* mnemonic := item 0 operation in
   Ok (operation, mnemonic))
  = Ok (split " " (strip (before "//" (strip text_line))),
        before " " (strip (before "//" (strip text_line)))).
Proof. rewrite interpret_line_eq. simpl. now rewrite item_0_split. Qed.

Lemma stops_eq (text_line : string) :
  stops text_line
  = contains "stop" (before " " (strip (before "//" (strip text_line)))).
Proof.
  unfold stops. rewrite interpret_line_eq. unfold split.
  now destruct (split_go_head " " (strip (before "//" (strip text_line))))
    as [rest ->].
Qed.

Section Turn.

Variables (dict : gmap string string) (sev : severity).

(** One turn, with the parsing spelled out. *)
Lemma interpret_turn_eq (text_line : string) (f : files) :
  interpret_turn dict sev text_line f =
    let code := strip (before "//" (strip text_line)) in
    if stops text_line then Break
    else
      match calculate (default fallback_opcode (dict !! before " " code))
              (split " " code) with
      | Raise e => Abort f e
      | Ok binary =>
          match diagnostic sev binary text_line with
          | Raise e => Abort (write_output f (binary +:+ newline)) e
          | Ok record =>
              Next (write_data (write_output f (binary +:+ newline)) record)
          end
      end.
Proof. unfold interpret_turn. rewrite parse_eq, stops_eq. reflexivity. Qed.

(** The loop, one turn at a time. *)
Lemma interpret_loop_cons (text_line : string) (rest : list string) (f : files) :
  interpret_loop dict sev (text_line :: rest) f =
    match interpret_turn dict sev text_line f with
    | Next f' => interpret_loop dict sev rest f'
    | Break => (f, None)
    | Abort f' e => (f', Some e)
    end.
Proof. reflexivity. Qed.

End Turn.

Lemma severity_bool_not_2 (b : bool) : severity_is_2 (SevBool b) = false.
Proof. now destruct b. Qed.

Lemma diagnostic_plain (sev : severity) (binary text_line : string) :
  severity_is_2 sev = false ->
  diagnostic sev binary text_line = Ok (binary +:+ tab +:+ text_line).
Proof. intros H. unfold diagnostic. now rewrite H. Qed.

(** *** The table *)

Lemma import_map_app (dict : gmap string string) (pre rest : list string) :
  import_map dict (pre ++ rest) =
    let* d := import_map dict pre in import_map d rest.
Proof.
  revert dict. induction pre as [|l pre IH]; intros dict; simpl; [reflexivity |].
  destruct (definition_of l) as [d|e]; simpl; [apply IH | reflexivity].
Qed.

Lemma import_map_keeps (mnemonic pattern : string) (rest : list string) :
  Forall (fun l => forall d, definition_of l = Ok d -> d.1 <> mnemonic) rest ->
  forall dict table,
    dict !! mnemonic = Some pattern ->
    import_map dict rest = Ok table ->
    table !! mnemonic = Some pattern.
Proof.
  induction 1 as [|l rest Hl Hrest IH]; intros dict table Hdict; simpl.
  - now intros [= <-].
  - destruct (definition_of l) as [d|e] eqn:Hd; simpl; [|discriminate].
    apply IH. rewrite lookup_insert_ne; [exact Hdict |]. now apply Hl.
Qed.

End DriverFacts.

(** ** Facts about [strip] and comments *)

Module ParseFacts.
Import PyStr Assembler Notions StrFacts SplitFacts.

Lemma lstrip_head (p : ascii -> bool) (s : string) :
  head_is p (lstrip_with p s) = false.
Proof.
  induction s as [|c r IH]; simpl; [reflexivity |].
  destruct (p c) eqn:Hc; [exact IH | simpl; exact Hc].
Qed.

Lemma lstrip_id (p : ascii -> bool) (s : string) :
  head_is p s = false -> lstrip_with p s = s.
Proof. destruct s as [|c r]; simpl; [reflexivity |]. now intros ->. Qed.

Lemma rstrip_cons (p : ascii -> bool) (c : ascii) (r : string) :
  p c = false -> rstrip_with p (String c r) = String c (rstrip_with p r).
Proof. intros Hc. simpl. rewrite Hc. now destruct (rstrip_with p r). Qed.

(** What [rstrip] leaves is empty or starts as the text does. *)
Lemma rstrip_same_head (p : ascii -> bool) (s : string) :
  rstrip_with p s = "" \/
  exists c r r', s = String c r /\ rstrip_with p s = String c r'.
Proof.
  destruct s as [|c r]; [now left |]. simpl.
  destruct (rstrip_with p r) as [|c' r'] eqn:Hr.
  - destruct (p c); [now left | right; eauto].
  - right; eauto.
Qed.

Lemma rstrip_head (p : ascii -> bool) (s : string) :
  head_is p s = false -> head_is p (rstrip_with p s) = false.
Proof.
  intros H. destruct (rstrip_same_head p s) as [-> | (c & r & r' & -> & ->)];
    [reflexivity | exact H].
Qed.

Lemma lstrip_app (p : ascii -> bool) (L : string) (x : ascii) (X : string) :
  p x = false ->
  lstrip_with p (L +:+ String x X) = lstrip_with p L +:+ String x X.
Proof.
  intros Hx. induction L as [|c r IH]; simpl.
  - now rewrite Hx.
  - destruct (p c); [exact IH | reflexivity].
Qed.

Lemma rstrip_app (p : ascii -> bool) (A Y : string) :
  rstrip_with p Y <> "" ->
  rstrip_with p (A +:+ Y) = A +:+ rstrip_with p Y.
Proof.
  intros HY. induction A as [|c r IH]; [reflexivity |].
  cbn [String.append rstrip_with]. rewrite IH.
  destruct (r +:+ rstrip_with p Y) as [|c' r'] eqn:Hr; [| reflexivity].
  destruct r; [simpl in Hr; contradiction | discriminate Hr].
Qed.

Lemma before_head (p : ascii -> bool) (sep s : string) :
  head_is p s = false -> head_is p (before sep s) = false.
Proof.
  destruct s as [|c r]; simpl; [reflexivity |].
  now destruct (startswith sep (String c r)).
Qed.

Lemma startswith_2 (a b c d : ascii) (r : string) :
  startswith (String a (String b "")) (String c (String d r))
  = Ascii.eqb c a && Ascii.eqb d b.
Proof. simpl. now rewrite andb_true_r. Qed.

Lemma startswith_2_short (a b c : ascii) :
  startswith (String a (String b "")) (String c "") = false.
Proof. simpl. apply andb_false_r. Qed.

(** Appending a comment leaves the text before the first [//] as it
    was, unless the text ends in a slash that joins the marker and holds
    no marker of its own. *)
Lemma before_comment (A C : string) :
  ends_with "/" A = false \/ contains "//" A = true ->
  before "//" (A +:+ "//" +:+ C) = before "//" A.
Proof.
  induction A as [|c r IH]; intros H; [reflexivity |].
  destruct r as [|c' r'].
  - cbn [String.append before]. rewrite startswith_2_short.
    assert (Hc : Ascii.eqb c "/" = false).
    { destruct H as [H | H]; [exact H |].
      cbn [contains] in H. rewrite startswith_2_short in H. discriminate H. }
    change ("//" +:+ C) with (String "/" (String "/" C)).
    rewrite startswith_2, Hc. reflexivity.
  - cbn [String.append before]. rewrite !startswith_2.
    destruct (Ascii.eqb c "/" && Ascii.eqb c' "/") eqn:Hs; [reflexivity |].
    f_equal. apply IH.
    destruct H as [H | H]; [left; exact H | right].
    cbn [contains] in H. rewrite startswith_2, Hs in H. exact H.
Qed.

Lemma space_not_slash (c : ascii) : isspace c = true -> Ascii.eqb c "/" = false.
Proof.
  destruct c as [[] [] [] [] [] [] [] []]; vm_compute; intros H;
    first [discriminate H | reflexivity].
Qed.

Lemma lstrip_ends_with (s : string) :
  ends_with "/" (lstrip_with isspace s) = ends_with "/" s.
Proof.
  induction s as [|c r IH]; [reflexivity |].
  cbn [lstrip_with]. destruct (isspace c) eqn:Hc; [| reflexivity].
  rewrite IH. destruct r as [|c' r']; [| reflexivity].
  simpl. symmetry. now apply space_not_slash.
Qed.

Lemma lstrip_contains (s : string) :
  contains "//" (lstrip_with isspace s) = contains "//" s.
Proof.
  induction s as [|c r IH]; [reflexivity |].
  cbn [lstrip_with]. destruct (isspace c) eqn:Hc; [| reflexivity].
  rewrite IH. cbn [contains].
  replace (startswith "//" (String c r)) with false; [reflexivity |].
  destruct r as [|c' r'].
  - now rewrite startswith_2_short.
  - now rewrite startswith_2, (space_not_slash c Hc).
Qed.

(** Trailing whitespace plays no part in what precedes the comment. *)
Lemma rstrip_before (A : string) :
  rstrip_with isspace (before "//" A)
  = rstrip_with isspace (before "//" (rstrip_with isspace A)).
Proof.
  induction A as [|c r IH]; [reflexivity |].
  cbn [before]. destruct (startswith "//" (String c r)) eqn:Hs.
  - destruct r as [|c' r']; [now rewrite startswith_2_short in Hs |].
    rewrite startswith_2 in Hs. apply andb_true_iff in Hs as [H1 H2].
    apply Ascii.eqb_eq in H1, H2. subst c c'.
    rewrite !rstrip_cons by reflexivity. cbn [before].
    now rewrite startswith_2.
  - cbn [rstrip_with]. rewrite IH.
    destruct (rstrip_same_head isspace r) as [Hr | (c' & r' & r'' & -> & Hr)].
    + rewrite Hr. cbn [before rstrip_with].
      destruct (isspace c) eqn:Hc; [reflexivity |].
      cbn [before]. rewrite startswith_2_short.
      cbn [before rstrip_with]. now rewrite Hc.
    + rewrite Hr. cbn [before].
      rewrite startswith_2 in Hs. rewrite startswith_2, Hs.
      reflexivity.
Qed.

(** What is parsed from a line followed by a comment. *)
Lemma strip_with_comment (L C : string) :
  strip (L +:+ "//" +:+ C)
  = lstrip_with isspace L +:+ "//" +:+ rstrip_with isspace C.
Proof.
  unfold strip. change ("//" +:+ C) with (String "/" (String "/" C)).
  rewrite lstrip_app by reflexivity.
  rewrite rstrip_app; rewrite !rstrip_cons by reflexivity;
    [reflexivity | discriminate].
Qed.

Lemma strip_before_strip (L : string) :
  strip (before "//" (strip L))
  = rstrip_with isspace (before "//" (lstrip_with isspace L)).
Proof.
  unfold strip at 1.
  rewrite lstrip_id.
  - unfold strip. now rewrite <- rstrip_before.
  - apply before_head. unfold strip. apply rstrip_head, lstrip_head.
Qed.

(** What [strip] leaves is empty or starts with a character that is
    not whitespace. *)
Lemma strip_head (s : string) : head_is isspace (strip s) = false.
Proof. unfold strip. apply rstrip_head, lstrip_head. Qed.

End ParseFacts.

(** ** Facts about trailing whitespace and the keys of the table *)

Module LineFacts.
Import PyStr Assembler Notions StrFacts SplitFacts ParseFacts DriverFacts.

Lemma lstrip_all (p : ascii -> bool) (s : string) :
  all_chars p s = true -> lstrip_with p s = "".
Proof.
  induction s as [|c r IH]; simpl; [reflexivity |].
  intros H. apply andb_true_iff in H as [Hc Hr]. now rewrite Hc, IH.
Qed.

Lemma rstrip_all (p : ascii -> bool) (s : string) :
  all_chars p s = true -> rstrip_with p s = "".
Proof.
  induction s as [|c r IH]; simpl; [reflexivity |].
  intros H. apply andb_true_iff in H as [Hc Hr]. now rewrite IH, Hc.
Qed.

Lemma rstrip_app_all (p : ascii -> bool) (A ws : string) :
  all_chars p ws = true -> rstrip_with p (A +:+ ws) = rstrip_with p A.
Proof.
  intros H. induction A as [|c r IH]; [now apply rstrip_all |].
  cbn [String.append rstrip_with]. now rewrite IH.
Qed.

Lemma strip_trailing (L ws : string) :
  all_chars isspace ws = true -> strip (L +:+ ws) = strip L.
Proof.
  intros H. unfold strip. induction L as [|c r IH].
  - cbn [String.append]. now rewrite lstrip_all.
  - cbn [String.append lstrip_with]. destruct (isspace c); [exact IH |].
    now apply (rstrip_app_all isspace (String c r)).
Qed.

Lemma ends_with_trailing (L ws : string) :
  all_chars isspace ws = true -> ws <> "" -> ends_with "/" (L +:+ ws) = false.
Proof.
  intros Hall Hne. induction L as [|c r IH].
  - cbn [String.append]. clear Hne. induction ws as [|w ws IHws]; [reflexivity |].
    cbn [all_chars] in Hall. apply andb_true_iff in Hall as [Hw Hws].
    destruct ws as [|w' ws']; [now apply space_not_slash |].
    now apply IHws.
  - cbn [String.append]. destruct (r +:+ ws) as [|c' r'] eqn:Hr; [| exact IH].
    destruct r; [simpl in Hr; contradiction | discriminate Hr].
Qed.

Lemma interpret_line_trailing (L ws : string) :
  all_chars isspace ws = true -> interpret_line (L +:+ ws) = interpret_line L.
Proof. intros H. rewrite !interpret_line_eq. now rewrite strip_trailing. Qed.

Lemma interpret_line_comment (L C : string) :
  ends_with "/" L = false \/ contains "//" L = true ->
  interpret_line (L +:+ "//" +:+ C) = interpret_line L.
Proof.
  intros H. rewrite !interpret_line_eq. f_equal. f_equal.
  rewrite (strip_before_strip L), strip_with_comment.
  unfold strip. rewrite before_comment.
  - rewrite lstrip_id; [reflexivity |]. apply before_head, lstrip_head.
  - now rewrite lstrip_ends_with, lstrip_contains.
Qed.

Lemma comment_only_before (text_line : string) :
  comment_only text_line = true -> before "//" (strip text_line) = "".
Proof.
  unfold comment_only. intros H. apply orb_true_iff in H as [H | H].
  - apply String.eqb_eq in H. now rewrite H.
  - destruct (strip text_line) as [|c r]; [reflexivity |].
    cbn [before]. now rewrite H.
Qed.

(** No line of the instruction list defines the empty mnemonic. *)
Lemma definition_mnemonic (text_line mnemonic pattern : string) :
  definition_of text_line = Ok (mnemonic, pattern) -> mnemonic <> "".
Proof.
  unfold definition_of.
  pose proof (strip_head text_line) as Hh.
  destruct (strip text_line) as [|c r]; [discriminate |]. simpl in Hh.
  unfold split at 1.
  destruct (split_go_head tab (String c r)) as [rest ->].
  destruct rest as [|operation_code [|x rest]]; try discriminate.
  rewrite item_0_split. cbn [bind]. intros [= <- _].
  unfold tab. cbn [before]. rewrite andb_true_r.
  destruct (Ascii.eqb_spec c "009") as [-> | Hne]; [discriminate Hh |].
  cbn [before]. rewrite startswith_char.
  destruct (Ascii.eqb_spec c " ") as [-> | Hne']; [discriminate Hh |].
  discriminate.
Qed.

Lemma import_map_no_empty_key (instruction_list : list string) :
  forall dict table,
    dict !! "" = None ->
    import_map dict instruction_list = Ok table ->
    table !! "" = None.
Proof.
  induction instruction_list as [|l rest IH]; intros dict table Hdict; simpl.
  - now intros [= <-].
  - destruct (definition_of l) as [[mnemonic pattern]|e] eqn:Hd; simpl;
      [| discriminate].
    apply IH. rewrite lookup_insert_ne; [exact Hdict |].
    now apply definition_mnemonic in Hd.
Qed.

End LineFacts.

(** * Properties *)

Import PyStr Assembler Notions.
Import StrFacts FieldFacts IntFacts SplitFacts OperandFacts DriverFacts ParseFacts LineFacts.

(** ** The signed field *)

(** C1, as the code behaves: [populate] strips the minus sign from
    [sequence] and only then asks whether [sequence] starts with one, so
    the branch that sets the top bit is never taken.  The field of a
    negative value is the field of its magnitude: -5 at width 7 gives
    0000101, not 1000101, and more generally negating a value never
    changes its field. *)
Theorem populate_loses_sign :
  populate "-101" 7 = "0000101" /\
  field "-5" = Ok "0000101" /\
  field "5" = Ok "0000101" /\
  field "0" = Ok "0000000" /\
  forall n w, signed_field (- n) w = signed_field n w.
Proof.
  repeat split; try reflexivity. apply signed_field_opp.
Qed.

(** ** The encoded word *)

Lemma fields_of_literals (ops : list string) (vals : list Z) :
  Forall2 (fun op n => py_int op = Ok n) ops vals ->
  Forall2 (fun op bits => operand_bits op = Ok bits) ops
    (map (fun n => signed_field n 7) vals).
Proof.
  induction 1 as [|op n ops vals Hop Hrest IH]; simpl; constructor.
  - now apply operand_bits_literal.
  - exact IH.
Qed.

Lemma join_fields_length (vals : list Z) :
  String.length (join (map (fun n => signed_field n 7) vals)) = fields_width vals.
Proof.
  unfold fields_width. induction vals as [|n vals IH]; simpl; [reflexivity |].
  now rewrite length_app, signed_field_length, IH.
Qed.

Lemma fields_all_bits (ops fields : list string) :
  Forall2 (fun op bits => operand_bits op = Ok bits) ops fields ->
  all_chars is_bit (join fields) = true.
Proof.
  intros H. apply join_bits.
  induction H as [|op bits ops fields Hop Hrest IH]; constructor.
  - now apply operand_bits_ok_bits in Hop.
  - exact IH.
Qed.

(** What [calculate] returns when every operand is encoded: the opcode
    and the fields, with the zeros [zfill] puts in front. *)
Lemma calculate_zero_filled (operation_code : string)
    (operation fields : list string) :
  Forall2 (fun op bits => operand_bits op = Ok bits) (tl operation) fields ->
  head_is is_sign operation_code = false ->
  calculate operation_code operation
  = Ok (zeros (32 - String.length (operation_code +:+ join fields))
        +:+ operation_code +:+ join fields).
Proof.
  intros Hfields Hcode.
  unfold calculate. rewrite (calculate_loop_ok _ _ Hfields). simpl.
  rewrite zfill_unsigned; [reflexivity |].
  apply head_app_unsigned; [exact Hcode |].
  now apply fields_all_bits in Hfields.
Qed.

(** C6. The word [calculate] returns is the opcode followed by the
    field of each operand, in the order of the tokens; when that text has
    at most 32 characters it is filled with zeros on the left to exactly
    32, and when it has more it is returned as it is.  (The opcode is a
    bit pattern: it does not start with a sign, which [zfill] would keep
    in front of the zeros.) *)
Theorem calculate_pads_to_32 (operation_code : string)
    (operation fields : list string) :
  Forall2 (fun op bits => operand_bits op = Ok bits) (tl operation) fields ->
  head_is is_sign operation_code = false ->
  let whole := operation_code +:+ join fields in
  (String.length whole <= 32 ->
     calculate operation_code operation
       = Ok (zeros (32 - String.length whole) +:+ whole) /\
     String.length (zeros (32 - String.length whole) +:+ whole) = 32) /\
  (32 < String.length whole ->
     calculate operation_code operation = Ok whole).
Proof.
  intros Hfields Hcode whole.
  pose proof (calculate_zero_filled _ _ _ Hfields Hcode) as Hcalc.
  fold whole in Hcalc.
  split.
  - intros Hle. split; [exact Hcalc |].
    rewrite length_app, length_zeros. lia.
  - intros Hlt. rewrite Hcalc.
    replace (32 - String.length whole) with 0 by lia. reflexivity.
Qed.

Lemma calculate_pads_to_32_witness :
  Forall2 (fun op bits => operand_bits op = Ok bits)
    (tl ["add"; "1"; "2"]) ["0000001"; "0000010"] /\
  head_is is_sign "000000" = false /\
  calculate "000000" ["add"; "1"; "2"]
    = Ok ("000000000000" +:+ "000000" +:+ "0000001" +:+ "0000010").
Proof.
  assert (H1 : Forall2 (fun op bits => operand_bits op = Ok bits)
                 (tl ["add"; "1"; "2"]) ["0000001"; "0000010"]).
  { repeat constructor. }
  assert (H2 : head_is is_sign "000000" = false) by reflexivity.
  split; [exact H1 |]. split; [exact H2 |].
  apply (calculate_pads_to_32 "000000" ["add"; "1"; "2"]
           ["0000001"; "0000010"] H1 H2).
  vm_compute. lia.
Defined.

(** ** Unknown mnemonics *)

(** C5, against the claim as stated: the mnemonic [foo] is in no table
    and its four operands are integer literals, yet the word has 39
    characters, since nothing cuts the fields down to the 21 characters
    the fallback opcode leaves. *)
Lemma unknown_mnemonic_long_word :
  (∅ : gmap string string) !! "foo" = None /\
  Forall2 (fun op n => py_int op = Ok n) ["1"; "2"; "3"; "4"] [1; 2; 3; 4]%Z /\
  calculate (default fallback_opcode ((∅ : gmap string string) !! "foo"))
    ["foo"; "1"; "2"; "3"; "4"]
    = Ok "000000000000000001000001000000110000100" /\
  ~ is_word32 "000000000000000001000001000000110000100".
Proof.
  split; [reflexivity |]. split; [repeat constructor |].
  split; [reflexivity |]. intros [Hlen _]. discriminate Hlen.
Qed.

(** C5, amended.  Looking up a mnemonic the table lacks gives the eleven
    zeros of the fallback opcode, and with integer literals as operands
    [calculate] raises nothing: it returns a word of 0 and 1 characters,
    of exactly 32 characters when the fields of the operands take at most
    21 characters together, and of eleven characters more than the fields
    otherwise. *)
Theorem unknown_mnemonic_encodes (dict : gmap string string)
    (mnemonic : string) (ops : list string) (vals : list Z) :
  dict !! mnemonic = None ->
  Forall2 (fun op n => py_int op = Ok n) ops vals ->
  let operation_code := default fallback_opcode (dict !! mnemonic) in
  operation_code = "00000000000" /\
  exists w,
    calculate operation_code (mnemonic :: ops) = Ok w /\
    all_chars is_bit w = true /\
    (fields_width vals <= 21 -> is_word32 w) /\
    (21 < fields_width vals -> String.length w = 11 + fields_width vals).
Proof.
  intros Hnone Hops operation_code.
  assert (Hcode : operation_code = "00000000000").
  { unfold operation_code. now rewrite Hnone. }
  split; [exact Hcode |]. rewrite Hcode.
  pose proof (fields_of_literals _ _ Hops) as Hfields.
  pose proof (calculate_zero_filled "00000000000" (mnemonic :: ops) _
                Hfields eq_refl) as Hw.
  pose proof (fields_all_bits _ _ Hfields) as Hbits.
  rewrite length_app, join_fields_length in Hw.
  change (String.length "00000000000") with 11 in Hw.
  eexists. split; [exact Hw |].
  assert (Hall : all_chars is_bit
            (zeros (32 - (11 + fields_width vals))
             +:+ "00000000000" +:+ join (map (fun n => signed_field n 7) vals))
            = true).
  { rewrite all_chars_app, all_bits_zeros, all_chars_app, Hbits. reflexivity. }
  assert (Hlen : String.length
            (zeros (32 - (11 + fields_width vals))
             +:+ "00000000000" +:+ join (map (fun n => signed_field n 7) vals))
            = Nat.max 32 (11 + fields_width vals)).
  { rewrite length_app, length_zeros, length_app, join_fields_length.
    change (String.length "00000000000") with 11. lia. }
  split; [exact Hall |]. split.
  - intros Hle. split; [rewrite Hlen; lia | exact Hall].
  - intros Hgt. rewrite Hlen. lia.
Qed.

Lemma unknown_mnemonic_encodes_witness :
  (∅ : gmap string string) !! "foo" = None /\
  Forall2 (fun op n => py_int op = Ok n) ["1"; "-2"; "3"] [1; -2; 3]%Z /\
  exists w,
    calculate "00000000000" ["foo"; "1"; "-2"; "3"] = Ok w /\
    all_chars is_bit w = true /\
    (fields_width [1; -2; 3]%Z <= 21 -> is_word32 w) /\
    (21 < fields_width [1; -2; 3]%Z ->
       String.length w = 11 + fields_width [1; -2; 3]%Z).
Proof.
  assert (H1 : (∅ : gmap string string) !! "foo" = None) by reflexivity.
  assert (H2 : Forall2 (fun op n => py_int op = Ok n)
                 ["1"; "-2"; "3"] [1; -2; 3]%Z).
  { repeat constructor. }
  split; [exact H1 |]. split; [exact H2 |].
  exact (proj2 (unknown_mnemonic_encodes ∅ "foo" _ _ H1 H2)).
Defined.

(** ** Indexed operands *)

(** C7, against the claim as stated: 200 and 3 are integer literals,
    and the operand 200(3) gives fifteen bits, not fourteen: the field of
    200 has eight. *)
Lemma indexed_operand_15_bits :
  py_int "200" = Ok 200%Z /\ py_int "3" = Ok 3%Z /\
  operand_bits "200(3)" = Ok ("11001000" +:+ "0000011") /\
  String.length ("11001000" +:+ "0000011") <> 14.
Proof. repeat split; try reflexivity. discriminate. Qed.

(** C7, amended.  For an operand R(O) with integer literals R and O,
    the register text is what stands before the first parenthesis and the
    offset text what stands between the parentheses; each is encoded on
    its own as a plain operand is, and the result is the field of the
    register followed by the field of the offset.  It has fourteen bits
    when both magnitudes are below 128. *)
Theorem indexed_operand_fields (R O : string) (r o : Z) :
  py_int R = Ok r -> py_int O = Ok o ->
  operand_bits (R +:+ "(" +:+ O +:+ ")")
    = Ok (signed_field r 7 +:+ signed_field o 7) /\
  operand_bits R = Ok (signed_field r 7) /\
  operand_bits O = Ok (signed_field o 7) /\
  ((Z.abs r < 128)%Z -> (Z.abs o < 128)%Z ->
   String.length (signed_field r 7 +:+ signed_field o 7) = 14).
Proof.
  intros HR HO.
  destruct (literal_lacks_paren _ _ HR) as [HRopen _].
  destruct (literal_lacks_paren _ _ HO) as [HOopen HOclose].
  split; [| split; [now apply operand_bits_literal |
                    split; [now apply operand_bits_literal |]]].
  - change (R +:+ "(" +:+ O +:+ ")") with (R +:+ String "(" (O +:+ ")")).
    rewrite operand_bits_indexed; [| exact HRopen |].
    + rewrite before_lacks by (rewrite lacks_app, HOopen; reflexivity).
      rewrite rstrip_closing by exact HOclose.
      now rewrite (field_literal _ _ HR), (field_literal _ _ HO).
    + assert (Hc : lacks ")" (String "(" (O +:+ ")")) = false).
      { unfold lacks. cbn [all_chars]. rewrite all_chars_app. cbn.
        now rewrite andb_false_r. }
      now rewrite contains_lacks, lacks_app, Hc, andb_false_r.
  - intros Hr Ho.
    rewrite length_app, (signed_field_small _ Hr), (signed_field_small _ Ho).
    reflexivity.
Qed.

Lemma indexed_operand_fields_witness :
  py_int "2" = Ok 2%Z /\ py_int "3" = Ok 3%Z /\
  operand_bits "2(3)" = Ok ("0000010" +:+ "0000011") /\
  operand_bits "2" = Ok "0000010" /\
  operand_bits "3" = Ok "0000011" /\
  ((Z.abs 2 < 128)%Z -> (Z.abs 3 < 128)%Z ->
   String.length ("0000010" +:+ "0000011") = 14).
Proof.
  assert (H1 : py_int "2" = Ok 2%Z) by reflexivity.
  assert (H2 : py_int "3" = Ok 3%Z) by reflexivity.
  split; [exact H1 |]. split; [exact H2 |].
  exact (indexed_operand_fields "2" "3" 2 3 H1 H2).
Defined.

(** ** The opcode table *)

(** C10. When several lines of the instruction list define the same
    mnemonic, the table that is loaded maps it to the bit pattern of the
    last of them. *)
Theorem last_definition_wins (dict table : gmap string string)
    (pre post : list string) (text_line mnemonic pattern : string) :
  definition_of text_line = Ok (mnemonic, pattern) ->
  Forall (fun l => forall d, definition_of l = Ok d -> d.1 <> mnemonic) post ->
  import_map dict (pre ++ text_line :: post) = Ok table ->
  table !! mnemonic = Some pattern.
Proof.
  intros Hline Hpost. rewrite import_map_app.
  destruct (import_map dict pre) as [d|e]; simpl; [|discriminate].
  rewrite Hline. simpl.
  apply (import_map_keeps mnemonic pattern post Hpost).
  apply lookup_insert_eq.
Qed.

Lemma last_definition_wins_witness :
  let first := "add rt, ra" +:+ tab +:+ "000001" +:+ newline in
  let second := "add rt, rb" +:+ tab +:+ "000010" +:+ newline in
  let other := "sub rt, ra" +:+ tab +:+ "000011" +:+ newline in
  definition_of second = Ok ("add", "000010") /\
  Forall (fun l => forall d, definition_of l = Ok d -> d.1 <> "add") [other] /\
  exists table,
    import_map ∅ ([first] ++ second :: [other]) = Ok table /\
    table !! "add" = Some "000010".
Proof.
  intros first second other.
  assert (H1 : definition_of second = Ok ("add", "000010")) by reflexivity.
  assert (H2 : Forall (fun l => forall d, definition_of l = Ok d -> d.1 <> "add")
                 [other]).
  { constructor; [| constructor]. intros d Hd. vm_compute in Hd.
    injection Hd as <-. discriminate. }
  assert (H3 : import_map ∅ ([first] ++ second :: [other])
               = Ok (<["sub" := "000011"]>
                       (<["add" := "000010"]> (<["add" := "000001"]> ∅))))
    by reflexivity.
  split; [exact H1 |]. split; [exact H2 |].
  eexists. split; [exact H3 |].
  exact (last_definition_wins ∅ _ [first] [other] second "add" "000010" H1 H2 H3).
Defined.

(** ** The driver *)

(** C4. Once the loop reaches a line whose mnemonic contains [stop], it
    ends: the turn writes nothing, and whatever follows the line, the
    files and the outcome are those of the lines before it. *)
Theorem stop_ends_run (dict : gmap string string) (sev : severity)
    (pre post : list string) (text_line : string) (f : files) :
  stops text_line = true ->
  interpret_turn dict sev text_line f = Break /\
  interpret_loop dict sev (pre ++ text_line :: post) f
    = interpret_loop dict sev pre f.
Proof.
  intros Hstop.
  assert (Hturn : forall g, interpret_turn dict sev text_line g = Break).
  { intros g. rewrite interpret_turn_eq. cbv zeta. now rewrite Hstop. }
  split; [apply Hturn |].
  revert f. induction pre as [|l pre IH]; intros f; simpl.
  - now rewrite Hturn.
  - destruct (interpret_turn dict sev l f); [apply IH | reflexivity | reflexivity].
Qed.

Lemma stop_ends_run_witness :
  let pre := ["lqd 1 2(3)" +:+ newline] in
  let post := ["add 1 2 3" +:+ newline; "nonsense x y" +:+ newline] in
  let text_line := "stop // done" +:+ newline in
  stops text_line = true /\
  interpret_turn ∅ (SevInt 2) text_line (Files [] []) = Break /\
  interpret_loop ∅ (SevInt 2) (pre ++ text_line :: post) (Files [] [])
    = interpret_loop ∅ (SevInt 2) pre (Files [] []).
Proof.
  intros pre post text_line.
  assert (H : stops text_line = true) by reflexivity.
  split; [exact H |].
  exact (stop_ends_run ∅ (SevInt 2) pre post text_line (Files [] []) H).
Defined.

(** C3, as the code behaves.  [--debug] is a [store_true] flag, so
    [log_severity] is [True] or [False], and neither equals 2: the test
    that guards the hexadecimal column never succeeds from the command
    line.  With [--debug] the run is the run without it, and the record
    of [add 1 2] holds the word, a tab and the line, and no hexadecimal
    column; only a severity of the integer 2 brings the column in. *)
Theorem debug_flag_adds_no_hex :
  (forall instruction_list source_file,
     main true instruction_list source_file
     = main false instruction_list source_file) /\
  (forall debug binary text_line,
     diagnostic (SevBool debug) binary text_line
     = Ok (binary +:+ tab +:+ text_line)) /\
  main true ["add rt, ra, rb" +:+ tab +:+ "000000" +:+ newline]
    ["add 1 2" +:+ newline]
  = Ok (Files ["00000000000000000000000010000010" +:+ newline]
          ["00000000000000000000000010000010" +:+ tab +:+ "add 1 2" +:+ newline],
        None) /\
  interpret_input (<["add" := "000000"]> ∅) (SevInt 2) ["add 1 2" +:+ newline]
  = (Files ["00000000000000000000000010000010" +:+ newline]
       ["00000000000000000000000010000010" +:+ tab +:+ "0x00000082" +:+ tab
        +:+ "add 1 2" +:+ newline],
     None).
Proof.
  split; [| split; [| split; reflexivity]].
  2: { intros debug binary text_line.
       apply diagnostic_plain, severity_bool_not_2. }
  intros instruction_list source_file. unfold main.
  destruct (import_map ∅ instruction_list) as [dict|e]; simpl; [| reflexivity].
  f_equal. unfold interpret_input. generalize (Files [] []).
  induction source_file as [|l rest IH]; intros f; simpl; [reflexivity |].
  rewrite !interpret_turn_eq. cbv zeta.
  destruct (stops l); [reflexivity |].
  destruct (calculate _ _) as [binary|e]; [| reflexivity].
  rewrite !diagnostic_plain by apply severity_bool_not_2.
  apply IH.
Qed.

(** C2, against the claim as stated: a line holding only a newline, and
    a line holding only a comment, are parsed to the empty mnemonic, and
    for each the driver writes a word of 32 zeros to the output and a
    record to [debug.out]. *)
Lemma blank_line_is_encoded :
  comment_only newline = true /\
  comment_only ("// setup" +:+ newline) = true /\
  interpret_line newline = Ok [""] /\
  interpret_input ∅ (SevBool false) [newline; "// setup" +:+ newline]
  = (Files [zeros 32 +:+ newline; zeros 32 +:+ newline]
       [zeros 32 +:+ tab +:+ newline;
        zeros 32 +:+ tab +:+ "// setup" +:+ newline],
     None) /\
  output_file (interpret_input ∅ (SevBool false) [newline]).1 <> [] /\
  data_object (interpret_input ∅ (SevBool false) [newline]).1 <> [].
Proof. repeat split; try reflexivity; discriminate. Qed.

(** C2, amended.  An empty or comment-only line is parsed to the empty
    mnemonic and no operand.  The driver does not skip it: no loaded
    table has an entry for the empty mnemonic, so the turn writes the
    word of 32 zeros to the output and one record for the line to
    [debug.out], and the loop goes on with the next line. *)
Theorem comment_only_line_encoded (instruction_list : list string)
    (dict : gmap string string) (sev : severity)
    (text_line : string) (rest : list string) (f : files) :
  import_map ∅ instruction_list = Ok dict ->
  comment_only text_line = true ->
  let record :=
    if severity_is_2 sev
    then zeros 32 +:+ tab +:+ "0x00000000" +:+ tab +:+ text_line
    else zeros 32 +:+ tab +:+ text_line in
  let f' := write_data (write_output f (zeros 32 +:+ newline)) record in
  interpret_line text_line = Ok [""] /\
  interpret_turn dict sev text_line f = Next f' /\
  interpret_loop dict sev (text_line :: rest) f = interpret_loop dict sev rest f'.
Proof.
  intros Hload Hblank record f'.
  pose proof (import_map_no_empty_key _ _ _ (lookup_empty "") Hload) as Hdict.
  pose proof (comment_only_before _ Hblank) as Hbefore.
  assert (Hline : interpret_line text_line = Ok [""]).
  { rewrite interpret_line_eq, Hbefore. reflexivity. }
  assert (Hturn : interpret_turn dict sev text_line f = Next f').
  { rewrite interpret_turn_eq, stops_eq, Hbefore.
    change (strip "") with "". cbv zeta.
    change (before " " "") with "". change (contains "stop" "") with false.
    cbv iota. rewrite Hdict.
    change (calculate (default fallback_opcode None) (split " " ""))
      with (Ok (A := string) (zeros 32)).
    unfold f', record, diagnostic.
    destruct (severity_is_2 sev); reflexivity. }
  split; [exact Hline |]. split; [exact Hturn |].
  now rewrite interpret_loop_cons, Hturn.
Qed.

Lemma comment_only_line_encoded_witness :
  let instruction_list := ["nop" +:+ tab +:+ "01000000001" +:+ newline] in
  let dict : gmap string string := <["nop" := "01000000001"]> ∅ in
  let text_line := "   // nothing here" +:+ newline in
  let f' := Files [zeros 32 +:+ newline]
              [zeros 32 +:+ tab +:+ "0x00000000" +:+ tab +:+ text_line] in
  import_map ∅ instruction_list = Ok dict /\
  comment_only text_line = true /\
  interpret_line text_line = Ok [""] /\
  interpret_turn dict (SevInt 2) text_line (Files [] []) = Next f' /\
  interpret_loop dict (SevInt 2) (text_line :: ["stop"]) (Files [] [])
  = interpret_loop dict (SevInt 2) ["stop"] f'.
Proof.
  intros instruction_list dict text_line f'.
  assert (H1 : import_map ∅ instruction_list = Ok dict) by reflexivity.
  assert (H2 : comment_only text_line = true) by reflexivity.
  split; [exact H1 |]. split; [exact H2 |].
  exact (comment_only_line_encoded instruction_list dict (SevInt 2) text_line
           ["stop"] (Files [] []) H1 H2).
Defined.

(** ** Comments *)

(** C9, against the claim as stated: the trimmed line [a/] followed by
    the comment [// note] is parsed to the mnemonic [a], not [a/]: the
    slash that ends the line joins the marker. *)
Lemma comment_changes_parse :
  strip "a/" = "a/" /\
  interpret_line "a/" = Ok ["a/"] /\
  interpret_line ("a/" +:+ "// note") = Ok ["a"] /\
  interpret_line ("a/" +:+ "// note") <> interpret_line "a/".
Proof. repeat split; try reflexivity. discriminate. Qed.

(** C9, amended.  Appending a comment to a line, with or without
    whitespace before the marker, does not change what is parsed from it,
    provided the marker cannot join a slash that ends the line: there is
    whitespace before the marker, or the line does not end in a slash,
    or the line already holds a marker.  So [add 1 2 // comment] and
    [add 1 2] give the same mnemonic and operands. *)
Theorem comment_keeps_parse (L ws C : string) :
  all_chars isspace ws = true ->
  ws <> "" \/ ends_with "/" L = false \/ contains "//" L = true ->
  interpret_line (L +:+ ws +:+ "//" +:+ C) = interpret_line L.
Proof.
  intros Hws Hcond.
  rewrite <- (interpret_line_trailing L ws Hws).
  rewrite <- app_assoc. apply interpret_line_comment.
  destruct (string_dec ws "") as [-> | Hne].
  - rewrite app_empty_r. destruct Hcond as [H | H]; [contradiction | exact H].
  - left. now apply ends_with_trailing.
Qed.

Lemma comment_keeps_parse_witness :
  all_chars isspace " " = true /\
  (" " <> "" \/ ends_with "/" "add 1 2" = false \/ contains "//" "add 1 2" = true) /\
  interpret_line "add 1 2 // comment" = interpret_line "add 1 2".
Proof.
  assert (H1 : all_chars isspace " " = true) by reflexivity.
  assert (H2 : " " <> "" \/ ends_with "/" "add 1 2" = false
               \/ contains "//" "add 1 2" = true).
  { right. left. reflexivity. }
  split; [exact H1 |]. split; [exact H2 |].
  exact (comment_keeps_parse "add 1 2" " " " comment" H1 H2).
Defined.

(** ** Operands that are not taken *)

Lemma py_int_raise (text : string) (e : exn) :
  py_int text = Raise e -> field text = Raise ValueError.
Proof.
  unfold field, py_int. now destruct (int_of_str 10 text).
Qed.

Lemma rejected_raises (op : string) :
  rejected op -> operand_bits op = Raise ValueError.
Proof.
  intros [op' Hp Hint | R X HR Hclose Hint | R X HR Hclose Hint].
  - rewrite operand_bits_plain by exact Hp. now apply py_int_raise in Hint.
  - rewrite operand_bits_indexed by assumption.
    now rewrite (py_int_raise _ _ Hint).
  - rewrite operand_bits_indexed by assumption.
    rewrite (py_int_raise _ _ Hint).
    destruct (field R) as [a|e] eqn:HfR; [reflexivity |].
    apply field_raise in HfR as [-> _]. reflexivity.
Qed.

(** C8, against the claim as stated: [2(3))] and [2(3)(oops] are not
    integer literals and are not of the form R(O) with integer literals
    R and O, yet they are encoded, as [2(3)] is, and the run goes on. *)
Lemma loose_indexed_operand_accepted :
  py_int "2(3))" = Raise ValueError /\
  py_int "2(3)(oops" = Raise ValueError /\
  (forall R O, "2(3))" = R +:+ "(" +:+ O +:+ ")" ->
     ~ (int_literal R /\ int_literal O)) /\
  (forall R O, "2(3)(oops" = R +:+ "(" +:+ O +:+ ")" ->
     ~ (int_literal R /\ int_literal O)) /\
  operand_bits "2(3))" = Ok ("0000010" +:+ "0000011") /\
  operand_bits "2(3)(oops" = Ok ("0000010" +:+ "0000011") /\
  interpret_input ∅ (SevBool false)
    ["lqd 2(3))" +:+ newline; "stqd 2(3)(oops" +:+ newline; "nop 1" +:+ newline]
  = (Files ["00000000000000000000000100000011" +:+ newline;
            "00000000000000000000000100000011" +:+ newline;
            "00000000000000000000000000000001" +:+ newline]
       ["00000000000000000000000100000011" +:+ tab +:+ "lqd 2(3))" +:+ newline;
        "00000000000000000000000100000011" +:+ tab +:+ "stqd 2(3)(oops"
          +:+ newline;
        "00000000000000000000000000000001" +:+ tab +:+ "nop 1" +:+ newline],
     None).
Proof.
  assert (Hform : forall tok R O,
            tok = R +:+ "(" +:+ O +:+ ")" -> int_literal R /\ int_literal O ->
            split "(" tok = [R; O +:+ ")"] /\ lacks ")" O = true).
  { intros tok R O -> [[r HR] [o HO]].
    destruct (literal_lacks_paren _ _ HR) as [HRopen _].
    destruct (literal_lacks_paren _ _ HO) as [HOopen HOclose].
    split; [| exact HOclose].
    change (R +:+ "(" +:+ O +:+ ")") with (R +:+ String "(" (O +:+ ")")).
    rewrite split_at_char by exact HRopen.
    rewrite split_lacks; [reflexivity |].
    rewrite lacks_app, HOopen. reflexivity. }
  repeat split; try reflexivity.
  - intros R O Heq Hlit. destruct (Hform _ R O Heq Hlit) as [Hsplit Hclose].
    change (split "(" "2(3))") with ["2"; "3))"] in Hsplit.
    injection Hsplit as _ HO.
    pose proof (rstrip_closing ")" O Hclose) as Hstrip.
    rewrite <- HO in Hstrip.
    change (rstrip_with (is_char ")") "3))") with "3" in Hstrip.
    subst O. discriminate HO.
  - intros R O Heq Hlit. destruct (Hform _ R O Heq Hlit) as [Hsplit _].
    change (split "(" "2(3)(oops") with ["2"; "3)"; "oops"] in Hsplit.
    discriminate Hsplit.
Qed.

(** C8, amended.  When a line that does not stop the run holds an
    operand token that [calculate] does not take (see [rejected]: a token
    without a pair of parentheses that is not an integer literal, or a
    token with both whose register text or offset text is not one), the
    turn raises [ValueError]: nothing is written for the line, the files
    stay as they were when the line was reached, and no later line is
    processed. *)
Theorem rejected_operand_aborts (dict : gmap string string) (sev : severity)
    (text_line : string) (rest : list string) (f : files)
    (operation : list string) (op : string) :
  interpret_line text_line = Ok operation ->
  stops text_line = false ->
  In op (tl operation) ->
  rejected op ->
  interpret_turn dict sev text_line f = Abort f ValueError /\
  interpret_loop dict sev (text_line :: rest) f = (f, Some ValueError).
Proof.
  intros Hline Hstop Hin Hrej.
  assert (Hturn : interpret_turn dict sev text_line f = Abort f ValueError).
  { rewrite interpret_turn_eq. cbv zeta. rewrite Hstop.
    rewrite interpret_line_eq in Hline. injection Hline as Hline.
    rewrite Hline. unfold calculate.
    rewrite (calculate_loop_raise _ op Hin (rejected_raises _ Hrej)).
    reflexivity. }
  split; [exact Hturn |]. now rewrite interpret_loop_cons, Hturn.
Qed.

Lemma rejected_operand_aborts_witness :
  let f := Files ["00000000000000000000000000000001" +:+ newline]
             ["00000000000000000000000000000001" +:+ tab +:+ "nop 1" +:+ newline] in
  let text_line := "ai 3 r4(8) 5" +:+ newline in
  interpret_line text_line = Ok ["ai"; "3"; "r4(8)"; "5"] /\
  stops text_line = false /\
  In "r4(8)" (tl ["ai"; "3"; "r4(8)"; "5"]) /\
  rejected "r4(8)" /\
  interpret_turn ∅ (SevBool true) text_line f = Abort f ValueError /\
  interpret_loop ∅ (SevBool true) (text_line :: ["nop 2" +:+ newline]) f
  = (f, Some ValueError).
Proof.
  intros f text_line.
  assert (H1 : interpret_line text_line = Ok ["ai"; "3"; "r4(8)"; "5"])
    by reflexivity.
  assert (H2 : stops text_line = false) by reflexivity.
  assert (H3 : In "r4(8)" (tl ["ai"; "3"; "r4(8)"; "5"])).
  { simpl. right. left. reflexivity. }
  assert (H4 : rejected "r4(8)").
  { apply (rejected_register "r4" "8)"); reflexivity. }
  split; [exact H1 |]. split; [exact H2 |]. split; [exact H3 |].
  split; [exact H4 |].
  exact (rejected_operand_aborts ∅ (SevBool true) text_line
           ["nop 2" +:+ newline] f _ "r4(8)" H1 H2 H3 H4).
Defined.

(** * Further properties *)

(** ** [populate] and the value of a field *)

Lemma zfill_length (w : nat) (s : string) :
  String.length (zfill w s) = Nat.max w (String.length s).
Proof.
  unfold zfill.
  destruct (Nat.leb_spec w (String.length s)) as [Hle | Hlt]; [lia |].
  destruct s as [|c r]; simpl in *.
  - rewrite length_zeros. lia.
  - destruct (Ascii.eqb c "+" || Ascii.eqb c "-"); simpl;
      rewrite length_app, length_zeros; simpl; lia.
Qed.

Lemma zfill_no_minus (w : nat) (s : string) :
  head_is (is_char "-") s = false -> startswith "-" (zfill w s) = false.
Proof.
  intros Hs. unfold zfill.
  destruct (Nat.leb_spec w (String.length s)) as [Hle | Hlt].
  - destruct s as [|c r]; [reflexivity |].
    simpl in *. unfold is_char in Hs. now rewrite Hs.
  - destruct s as [|c r]; simpl in *.
    + destruct w; [lia | reflexivity].
    + unfold is_char in Hs. rewrite Hs, orb_false_r.
      destruct (Ascii.eqb_spec c "+") as [-> | Hne]; [reflexivity |].
      destruct (w - S (String.length r)) eqn:Hw; [lia | reflexivity].
Qed.

(** X1. For every text and width, [populate] returns the text without
    its leading minus signs, zero-filled to the width: the branch that
    would put a 1 in front is never taken.  The result has the width
    asked for, or the length of the stripped text when that is more. *)
Theorem populate_is_zfill (sequence : string) (span : nat) :
  populate sequence span = zfill span (lstrip_with (is_char "-") sequence) /\
  String.length (populate sequence span)
  = Nat.max span (String.length (lstrip_with (is_char "-") sequence)).
Proof.
  assert (H : populate sequence span
              = zfill span (lstrip_with (is_char "-") sequence)).
  { unfold populate. rewrite zfill_no_minus; [reflexivity |].
    apply lstrip_head. }
  split; [exact H |]. rewrite H. apply zfill_length.
Qed.

Lemma bits_value_shift (s : string) (acc : Z) :
  bits_value s acc
  = (acc * 2 ^ Z.of_nat (String.length s) + bits_value s 0)%Z.
Proof.
  revert acc. induction s as [|c r IH]; intros acc.
  - simpl. lia.
  - cbn [bits_value String.length].
    rewrite (IH (2 * acc + _)%Z), (IH (2 * 0 + _)%Z).
    rewrite Nat2Z.inj_succ, Z.pow_succ_r by lia. ring.
Qed.

Lemma bits_value_zeros (k : nat) (s : string) :
  bits_value (zeros k +:+ s) 0 = bits_value s 0.
Proof. induction k as [|k IH]; [reflexivity | exact IH]. Qed.

Lemma bits_value_bin_pos (p : positive) (rest : string) (acc : Z) :
  bits_value (bin_pos p rest) acc
  = bits_value rest (acc * 2 ^ Z.of_nat (Pos.size_nat p) + Z.pos p)%Z.
Proof.
  revert rest acc. induction p as [p IH | p IH |]; intros rest acc.
  - cbn [bin_pos Pos.size_nat]. rewrite IH. cbn [bits_value].
    change (Ascii.eqb "1" "1") with true. cbv iota. f_equal.
    rewrite Nat2Z.inj_succ, Z.pow_succ_r by lia. lia.
  - cbn [bin_pos Pos.size_nat]. rewrite IH. cbn [bits_value].
    change (Ascii.eqb "0" "1") with false. cbv iota. f_equal.
    rewrite Nat2Z.inj_succ, Z.pow_succ_r by lia. lia.
  - cbn [bin_pos Pos.size_nat bits_value].
    change (Ascii.eqb "1" "1") with true. cbv iota. f_equal.
    change (2 ^ Z.of_nat 1)%Z with 2%Z. lia.
Qed.

Lemma magnitude_value (n : Z) : bits_value (magnitude n) 0 = Z.abs n.
Proof.
  destruct n as [|p|p]; [reflexivity | | ]; simpl;
    rewrite bits_value_bin_pos; simpl; lia.
Qed.

Lemma scan_digits_bits (s : string) :
  all_chars is_bit s = true ->
  forall acc k,
    scan_digits 2 s false acc k
    = Some (bits_value s acc, k + String.length s, EmptyString).
Proof.
  induction s as [|c r IH]; intros Hs acc k.
  - simpl. now rewrite Nat.add_0_r.
  - cbn [all_chars] in Hs. apply andb_true_iff in Hs as [Hc Hr].
    cbn [scan_digits bits_value String.length].
    unfold is_bit in Hc. apply orb_true_iff in Hc as [Hc | Hc];
      apply Ascii.eqb_eq in Hc; subst c.
    + change (Ascii.eqb "0" "_") with false.
      change (digit_in 2 "0") with (Some 0%Z).
      change (Ascii.eqb "0" "1") with false. cbv iota.
      rewrite (IH Hr).
      replace (acc * 2 + 0)%Z with (2 * acc + 0)%Z by lia.
      now replace (S k + String.length r) with (k + S (String.length r)) by lia.
    + change (Ascii.eqb "1" "_") with false.
      change (digit_in 2 "1") with (Some 1%Z).
      change (Ascii.eqb "1" "1") with true. cbv iota.
      rewrite (IH Hr).
      replace (acc * 2 + 1)%Z with (2 * acc + 1)%Z by lia.
      now replace (S k + String.length r) with (k + S (String.length r)) by lia.
Qed.

(** [int(s, 2)] on a text of binary digits. *)
Lemma int_of_bits (s : string) :
  all_chars is_bit s = true -> s <> "" ->
  int_of_str 2 s = Some (bits_value s 0).
Proof.
  intros Hs Hne. destruct s as [|c r]; [contradiction |].
  pose proof Hs as Hall. cbn [all_chars] in Hs.
  apply andb_true_iff in Hs as [Hc Hr].
  assert (Hstart :
    let '(sign, s2) := take_sign (lstrip_with int_space (String c r)) in
    sign = 1%Z /\ skip_0b s2 = String c r
    /\ startswith "_" (String c r) = false).
  { unfold is_bit in Hc. apply orb_true_iff in Hc as [Hc | Hc];
      apply Ascii.eqb_eq in Hc; subst c; cbn.
    - destruct r as [|c' r']; [repeat split |].
      cbn [all_chars] in Hr. apply andb_true_iff in Hr as [Hc' _].
      unfold is_bit in Hc'. apply orb_true_iff in Hc' as [Hc' | Hc'];
        apply Ascii.eqb_eq in Hc'; subst c'; repeat split.
    - repeat split. }
  unfold int_of_str.
  destruct (take_sign (lstrip_with int_space (String c r))) as [sign s2].
  destruct Hstart as (-> & Hskip & Hus).
  change (2 =? 2)%Z with true. cbv iota. rewrite Hskip, Hus.
  rewrite (scan_digits_bits _ Hall). cbn [String.length Nat.add Nat.eqb].
  cbn [negb andb all_chars]. f_equal. lia.
Qed.

(** X2. Read back as a binary numeral, the field of a value is the
    magnitude of the value, at every width: encoding keeps the magnitude
    and loses the sign. *)
Theorem field_decodes_to_magnitude (n : Z) (w : nat) :
  int_of_str 2 (signed_field n w) = Some (Z.abs n).
Proof.
  rewrite int_of_bits.
  - rewrite signed_field_eq, bits_value_zeros. f_equal. apply magnitude_value.
  - apply signed_field_bits.
  - rewrite signed_field_eq. intros H.
    apply (f_equal String.length) in H.
    rewrite length_app, magnitude_length in H. simpl in H.
    destruct n; simpl in H; try lia;
      pose proof (Pos.size_nat_monotone 1 p) as Hp;
      destruct p; simpl in *; lia.
Qed.

(** ** When [calculate] succeeds *)

Lemma raise_is_rejected (op : string) (e : exn) :
  operand_bits op = Raise e -> rejected op.
Proof.
  destruct (contains "(" op && contains ")" op) eqn:Hp.
  - apply andb_true_iff in Hp as [Hopen Hclose].
    rewrite contains_lacks in Hopen. apply negb_true_iff in Hopen.
    destruct (first_occurrence _ _ Hopen) as (R & X & -> & HR).
    rewrite operand_bits_indexed by assumption.
    destruct (field R) as [a|e1] eqn:H1; simpl.
    + destruct (field (rstrip_with (is_char ")") (before "(" X)))
        as [b|e2] eqn:H2; simpl; [discriminate |].
      intros _. apply field_raise in H2 as [_ H2].
      now apply rejected_offset.
    + intros _. apply field_raise in H1 as [_ H1].
      now apply rejected_register.
  - rewrite operand_bits_plain by exact Hp. intros H.
    apply field_raise in H as [_ H]. now apply rejected_plain.
Qed.

Lemma calculate_loop_all_ok (ops : list string) :
  Forall (fun op => ~ rejected op) ops ->
  forall acc, exists w, calculate_loop acc ops = Ok w.
Proof.
  induction 1 as [|op ops Hop Hops IH]; intros acc; simpl; [eauto |].
  destruct (operand_bits op) as [bits|e] eqn:Hb; simpl; [apply IH |].
  exfalso. apply Hop. now apply raise_is_rejected in Hb.
Qed.

Lemma calculate_loop_ok_all (ops : list string) :
  forall acc w, calculate_loop acc ops = Ok w ->
  Forall (fun op => ~ rejected op) ops.
Proof.
  induction ops as [|op ops IH]; intros acc w; simpl; [constructor |].
  destruct (operand_bits op) as [bits|e] eqn:Hb; simpl; [|discriminate].
  intros H. constructor; [| now apply IH in H].
  intros Hrej. apply rejected_raises in Hrej. congruence.
Qed.

Lemma calculate_raise (operation_code : string) (operation : list string)
    (e : exn) :
  calculate operation_code operation = Raise e -> e = ValueError.
Proof.
  unfold calculate.
  destruct (calculate_loop operation_code (tl operation)) as [b|e'] eqn:Hl;
    simpl; [discriminate |].
  intros [= <-]. revert Hl. generalize operation_code.
  induction (tl operation) as [|op ops IH]; intros acc; simpl; [discriminate |].
  destruct (operand_bits op) as [bits|e] eqn:Hb; simpl.
  - apply IH.
  - intros [= <-]. now apply operand_bits_raise in Hb.
Qed.

(** X3. [calculate] returns a word exactly when none of the operand
    tokens is one it does not take; otherwise it raises, and what it
    raises is always [ValueError] (the indexing of the pieces of an
    indexed operand never fails). *)
Theorem calculate_succeeds_iff (operation_code : string)
    (operation : list string) :
  ((exists w, calculate operation_code operation = Ok w)
   <-> Forall (fun op => ~ rejected op) (tl operation)) /\
  (forall e, calculate operation_code operation = Raise e -> e = ValueError).
Proof.
  unfold calculate. split; [split |].
  - intros [w H].
    destruct (calculate_loop operation_code (tl operation)) as [b|e] eqn:Hl;
      [| discriminate].
    now apply calculate_loop_ok_all in Hl.
  - intros H.
    destruct (calculate_loop_all_ok _ H operation_code) as [b ->].
    simpl. eauto.
  - intros e. fold (calculate operation_code operation). apply calculate_raise.
Qed.

(** ** What [interpret_line] returns *)

Lemma split_go_lacks (a : ascii) (s : string) :
  Forall (fun t => lacks a t = true) (split_go (String a "") s 0).
Proof.
  induction s as [|c r IH]; [repeat constructor |].
  cbn [split_go]. rewrite startswith_char.
  destruct (Ascii.eqb c a) eqn:Hc.
  - constructor; [reflexivity | exact IH].
  - destruct (split_go (String a "") r 0) as [|p ps];
      [repeat constructor; unfold lacks; simpl; now rewrite Hc |].
    inversion IH as [|? ? Hp Hps]; subst.
    constructor; [| exact Hps].
    unfold lacks in *. simpl. now rewrite Hc, Hp.
Qed.

Lemma concat_split_go (a : ascii) (s : string) :
  String.concat (String a "") (split_go (String a "") s 0) = s.
Proof.
  induction s as [|c r IH]; [reflexivity |].
  cbn [split_go]. rewrite startswith_char.
  destruct (split_go_head (String a "") r) as [rest Hrest].
  change (String.length (String a "") - 1) with 0.
  rewrite Hrest in *.
  destruct (Ascii.eqb_spec c a) as [-> | Hne].
  - change (String.concat (String a "") ("" :: before (String a "") r :: rest))
      with (String a (String.concat (String a "") (before (String a "") r :: rest))).
    now rewrite IH.
  - destruct rest as [|y ys].
    + change (String c (before (String a "") r) = String c r).
      now rewrite <- IH at 2.
    + change (String c (before (String a "") r +:+ String a ""
                        +:+ String.concat (String a "") (y :: ys))
              = String c r).
      now rewrite <- IH at 2.
Qed.

(** X4. Parsing a line never raises and always yields a mnemonic, even
    for an empty line.  No token holds a space, and the tokens joined by
    single spaces are the text of the line before its first [//], with
    the whitespace at both ends removed: the split loses nothing. *)
Theorem interpret_line_tokens (text_line : string) :
  exists mnemonic operands,
    interpret_line text_line = Ok (mnemonic :: operands) /\
    Forall (fun t => lacks " " t = true) (mnemonic :: operands) /\
    String.concat " " (mnemonic :: operands)
    = strip (before "//" (strip text_line)).
Proof.
  rewrite interpret_line_eq.
  set (code := strip (before "//" (strip text_line))).
  pose proof (split_go_lacks " " code) as Hlacks.
  pose proof (concat_split_go " " code) as Hjoin.
  unfold split. destruct (split_go_head " " code) as [rest Hrest].
  rewrite Hrest in *. eauto.
Qed.

Lemma lstrip_leading (ws L : string) :
  all_chars isspace ws = true ->
  lstrip_with isspace (ws +:+ L) = lstrip_with isspace L.
Proof.
  induction ws as [|c r IH]; [reflexivity |].
  cbn [all_chars String.append lstrip_with].
  intros H. apply andb_true_iff in H as [Hc Hr]. now rewrite Hc, IH.
Qed.

(** X5. Whitespace before and after a source line (its indentation, its
    newline) plays no part in what is parsed from it. *)
Theorem interpret_line_ignores_margins (before_ws L after_ws : string) :
  all_chars isspace before_ws = true ->
  all_chars isspace after_ws = true ->
  interpret_line (before_ws +:+ L +:+ after_ws) = interpret_line L.
Proof.
  intros Hb Ha. rewrite <- app_assoc.
  rewrite (interpret_line_trailing _ _ Ha).
  rewrite !interpret_line_eq. unfold strip at 2 4.
  now rewrite lstrip_leading.
Qed.

Lemma interpret_line_ignores_margins_witness :
  all_chars isspace "  " = true /\
  all_chars isspace newline = true /\
  interpret_line ("  " +:+ "lqd 1 2(3)" +:+ newline) = interpret_line "lqd 1 2(3)".
Proof.
  assert (H1 : all_chars isspace "  " = true) by reflexivity.
  assert (H2 : all_chars isspace newline = true) by reflexivity.
  split; [exact H1 |]. split; [exact H2 |].
  exact (interpret_line_ignores_margins "  " "lqd 1 2(3)" newline H1 H2).
Defined.

(** ** The loaded table *)

Lemma definition_raise (text_line : string) (e : exn) :
  definition_of text_line = Raise e -> e = ValueError.
Proof.
  unfold definition_of.
  destruct (split tab (strip text_line)) as [|operation [|code [|x rest]]];
    try now intros [= <-].
  rewrite item_0_split. discriminate.
Qed.

Lemma import_map_raise (lines : list string) :
  forall dict e, import_map dict lines = Raise e -> e = ValueError.
Proof.
  induction lines as [|l lines IH]; intros dict e; simpl; [discriminate |].
  destruct (definition_of l) as [d|e'] eqn:Hd; simpl; [apply IH |].
  intros [= <-]. now apply definition_raise in Hd.
Qed.

Lemma import_map_entry (lines : list string) (mnemonic pattern : string) :
  forall dict table,
    import_map dict lines = Ok table ->
    table !! mnemonic = Some pattern ->
    dict !! mnemonic = Some pattern \/
    exists l, In l lines /\ definition_of l = Ok (mnemonic, pattern).
Proof.
  induction lines as [|l lines IH]; intros dict table; simpl.
  - intros [= <-] H. now left.
  - destruct (definition_of l) as [[m p]|e] eqn:Hd; simpl; [|discriminate].
    intros Hload Hentry.
    destruct (IH _ _ Hload Hentry) as [H | (l' & Hin & Hl')].
    + rewrite lookup_insert in H. destruct (decide (m = mnemonic)) as [-> | Hne].
      * injection H as ->. right. exists l. now split; [left |].
      * now left.
    + right. exists l'. now split; [right |].
Qed.

Lemma import_map_defined (lines : list string) (mnemonic : string) :
  forall dict table,
    import_map dict lines = Ok table ->
    is_Some (dict !! mnemonic) \/
    (exists l pattern, In l lines /\ definition_of l = Ok (mnemonic, pattern)) ->
    is_Some (table !! mnemonic).
Proof.
  induction lines as [|l lines IH]; intros dict table; simpl.
  - intros [= <-] [H | (l & p & [] & _)]. exact H.
  - destruct (definition_of l) as [[m p]|e] eqn:Hd; simpl; [|discriminate].
    intros Hload H. apply (IH _ _ Hload).
    destruct (decide (m = mnemonic)) as [-> | Hne].
    + left. rewrite lookup_insert_eq. eauto.
    + destruct H as [H | (l' & p' & [<- | Hin] & Hl')].
      * left. now rewrite lookup_insert_ne.
      * congruence.
      * right. eauto.
Qed.

(** X6. After loading, the table has an entry for a mnemonic exactly
    when it had one before or some line of the instruction list defines
    the mnemonic.  Loaded from the empty table, as the script does, a
    mnemonic that no line defines has no entry, and the driver gives it
    the fallback opcode. *)
Theorem loaded_entry_iff_defined (dict table : gmap string string)
    (lines : list string) (mnemonic : string) :
  import_map dict lines = Ok table ->
  (is_Some (table !! mnemonic) <->
   is_Some (dict !! mnemonic) \/
   exists l pattern, In l lines /\ definition_of l = Ok (mnemonic, pattern)) /\
  (dict = ∅ ->
   (forall l pattern, In l lines -> definition_of l <> Ok (mnemonic, pattern)) ->
   default fallback_opcode (table !! mnemonic) = fallback_opcode).
Proof.
  intros Hload. split; [split |].
  - intros [p Hp].
    destruct (import_map_entry _ _ _ _ _ Hload Hp) as [H | (l & Hin & Hl)];
      [left | right]; eauto.
  - now apply import_map_defined.
  - intros -> Hnone.
    destruct (table !! mnemonic) as [p|] eqn:Hp; [| reflexivity].
    destruct (import_map_entry _ _ _ _ _ Hload Hp) as [H | (l & Hin & Hl)].
    + rewrite lookup_empty in H. discriminate.
    + now apply Hnone in Hl.
Qed.

Lemma loaded_entry_iff_defined_witness :
  let lines := ["add rt, ra" +:+ tab +:+ "000001" +:+ newline;
                "sub rt, ra" +:+ tab +:+ "000011" +:+ newline] in
  let table : gmap string string :=
    <["sub" := "000011"]> (<["add" := "000001"]> ∅) in
  import_map ∅ lines = Ok table /\
  is_Some (table !! "sub") /\
  default fallback_opcode (table !! "mul") = fallback_opcode.
Proof.
  intros lines table.
  assert (H : import_map ∅ lines = Ok table) by reflexivity.
  destruct (loaded_entry_iff_defined ∅ table lines "sub" H) as [Hiff _].
  destruct (loaded_entry_iff_defined ∅ table lines "mul" H) as [_ Hmul].
  split; [exact H |]. split.
  - apply Hiff. right. exists ("sub rt, ra" +:+ tab +:+ "000011" +:+ newline), "000011".
    split; [right; left; reflexivity | reflexivity].
  - apply Hmul; [reflexivity |].
    intros l p [<- | [<- | []]]; discriminate.
Defined.

Lemma rstrip_idempotent (p : ascii -> bool) (s : string) :
  rstrip_with p (rstrip_with p s) = rstrip_with p s.
Proof.
  induction s as [|c r IH]; [reflexivity |].
  cbn [rstrip_with]. destruct (rstrip_with p r) as [|c' r'] eqn:Hr.
  - destruct (p c) eqn:Hc; [reflexivity |]. simpl. now rewrite Hc.
  - cbn [rstrip_with]. cbn [rstrip_with] in IH. now rewrite IH.
Qed.

Lemma strip_idempotent (s : string) : strip (strip s) = strip s.
Proof.
  unfold strip at 1. rewrite lstrip_id by apply strip_head.
  unfold strip. apply rstrip_idempotent.
Qed.

Lemma lacks_lstrip (a : ascii) (p : ascii -> bool) (s : string) :
  lacks a s = true -> lacks a (lstrip_with p s) = true.
Proof.
  unfold lacks. induction s as [|c r IH]; [trivial |].
  cbn [lstrip_with]. destruct (p c); [| trivial].
  cbn [all_chars]. intros H. apply andb_true_iff in H as [_ H]. now apply IH.
Qed.

Lemma lacks_rstrip (a : ascii) (p : ascii -> bool) (s : string) :
  lacks a s = true -> lacks a (rstrip_with p s) = true.
Proof.
  unfold lacks. induction s as [|c r IH]; [trivial |].
  cbn [all_chars rstrip_with]. intros H. apply andb_true_iff in H as [Hc Hr].
  specialize (IH Hr). destruct (rstrip_with p r) as [|c' r'].
  - destruct (p c); [reflexivity |]. simpl. now rewrite Hc.
  - cbn [all_chars]. cbn [all_chars] in IH. now rewrite Hc, IH.
Qed.

Lemma lacks_before (a : ascii) (sep s : string) :
  lacks a s = true -> lacks a (before sep s) = true.
Proof.
  unfold lacks. induction s as [|c r IH]; [trivial |].
  cbn [before all_chars]. intros H. apply andb_true_iff in H as [Hc Hr].
  destruct (startswith sep (String c r)); [reflexivity |].
  cbn [all_chars]. now rewrite Hc, IH.
Qed.

Lemma before_lacks_sep (a : ascii) (s : string) :
  lacks a (before (String a "") s) = true.
Proof.
  unfold lacks. induction s as [|c r IH]; [reflexivity |].
  cbn [before]. rewrite startswith_char.
  destruct (Ascii.eqb c a) eqn:Hc; [reflexivity |].
  cbn [all_chars]. now rewrite Hc, IH.
Qed.

Lemma definition_shape (text_line mnemonic pattern : string) :
  definition_of text_line = Ok (mnemonic, pattern) ->
  mnemonic <> "" /\ lacks " " mnemonic = true /\ lacks "009" mnemonic = true /\
  strip pattern = pattern /\ lacks "009" pattern = true.
Proof.
  intros Hd. split; [now apply definition_mnemonic in Hd |].
  revert Hd. unfold definition_of.
  pose proof (split_go_lacks "009" (strip text_line)) as Hl.
  fold tab in Hl. fold (split tab (strip text_line)) in Hl.
  destruct (split tab (strip text_line)) as [|operation [|code [|x rest]]];
    try discriminate.
  rewrite item_0_split. cbn [bind]. intros [= <- <-].
  inversion Hl as [|? ? Hop Hrest]; subst.
  inversion Hrest as [|? ? Hcode _]; subst.
  split; [apply before_lacks_sep |].
  split; [now apply lacks_before |].
  split; [apply strip_idempotent |].
  unfold strip. now apply lacks_rstrip, lacks_lstrip.
Qed.

(** X7. Every entry of a table loaded from the empty table is well
    shaped: the mnemonic is not empty and holds no space and no tab, so a
    token of a source line can match it, and the pattern holds no tab and
    has no whitespace at either end. *)
Theorem loaded_table_shape (table : gmap string string) (lines : list string)
    (mnemonic pattern : string) :
  import_map ∅ lines = Ok table ->
  table !! mnemonic = Some pattern ->
  mnemonic <> "" /\ lacks " " mnemonic = true /\ lacks "009" mnemonic = true /\
  strip pattern = pattern /\ lacks "009" pattern = true.
Proof.
  intros Hload Hentry.
  destruct (import_map_entry _ _ _ _ _ Hload Hentry) as [H | (l & _ & Hl)].
  - rewrite lookup_empty in H. discriminate.
  - now apply definition_shape in Hl.
Qed.

Lemma loaded_table_shape_witness :
  let lines := ["lqd rt, symbol(ra)  " +:+ tab +:+ "  00110100 " +:+ newline] in
  let table : gmap string string := <["lqd" := "00110100"]> ∅ in
  import_map ∅ lines = Ok table /\
  table !! "lqd" = Some "00110100" /\
  "lqd" <> "" /\ lacks " " "lqd" = true /\ lacks "009" "lqd" = true /\
  strip "00110100" = "00110100" /\ lacks "009" "00110100" = true.
Proof.
  intros lines table.
  assert (H1 : import_map ∅ lines = Ok table) by reflexivity.
  assert (H2 : table !! "lqd" = Some "00110100") by reflexivity.
  split; [exact H1 |]. split; [exact H2 |].
  exact (loaded_table_shape table lines "lqd" "00110100" H1 H2).
Defined.

Lemma split_go_length (a : ascii) (s : string) :
  length (split_go (String a "") s 0) = S (occurrences a s).
Proof.
  induction s as [|c r IH]; [reflexivity |].
  cbn [split_go occurrences]. rewrite startswith_char.
  change (String.length (String a "") - 1) with 0.
  destruct (Ascii.eqb c a).
  - cbn [length]. now rewrite IH.
  - destruct (split_go (String a "") r 0) as [|p ps]; [discriminate IH |].
    exact IH.
Qed.

(** X8. A line of the instruction list is taken exactly when, stripped,
    it holds one tab.  A line with no tab (a blank line, say) or with
    more than one makes the load raise [ValueError] wherever it stands in
    the list, and the script then raises before any source line is
    read. *)
Theorem definition_needs_one_tab (text_line : string) :
  (occurrences "009" (strip text_line) = 1 ->
   exists mnemonic pattern, definition_of text_line = Ok (mnemonic, pattern)) /\
  (occurrences "009" (strip text_line) <> 1 ->
   definition_of text_line = Raise ValueError /\
   forall dict pre post debug source_file,
     import_map dict (pre ++ text_line :: post) = Raise ValueError /\
     main debug (pre ++ text_line :: post) source_file = Raise ValueError).
Proof.
  pose proof (split_go_length "009" (strip text_line)) as Hlen.
  fold tab in Hlen. fold (split tab (strip text_line)) in Hlen.
  split.
  - intros Hone. rewrite Hone in Hlen. unfold definition_of.
    destruct (split tab (strip text_line)) as [|operation [|code [|x rest]]];
      try discriminate Hlen.
    rewrite item_0_split. cbn [bind]. eauto.
  - intros Hne.
    assert (Hdef : definition_of text_line = Raise ValueError).
    { unfold definition_of.
      destruct (split tab (strip text_line)) as [|operation [|code [|x rest]]];
        try reflexivity.
      simpl in Hlen. lia. }
    split; [exact Hdef |].
    assert (Himp : forall dict pre post,
              import_map dict (pre ++ text_line :: post) = Raise ValueError).
    { intros dict pre post. rewrite import_map_app.
      destruct (import_map dict pre) as [d|e] eqn:Hpre; simpl.
      - now rewrite Hdef.
      - now rewrite (import_map_raise _ _ _ Hpre). }
    intros dict pre post debug source_file. split; [apply Himp |].
    unfold main. now rewrite Himp.
Qed.

Lemma definition_needs_one_tab_witness :
  occurrences "009" (strip ("add rt, ra" +:+ tab +:+ "000001" +:+ newline)) = 1 /\
  (exists mnemonic pattern,
     definition_of ("add rt, ra" +:+ tab +:+ "000001" +:+ newline)
     = Ok (mnemonic, pattern)) /\
  occurrences "009" (strip newline) <> 1 /\
  main true (["add rt, ra" +:+ tab +:+ "000001" +:+ newline] ++ newline :: [])
    ["add 1 2" +:+ newline]
  = Raise ValueError.
Proof.
  assert (H1 : occurrences "009"
                 (strip ("add rt, ra" +:+ tab +:+ "000001" +:+ newline)) = 1)
    by reflexivity.
  assert (H2 : occurrences "009" (strip newline) <> 1) by discriminate.
  split; [exact H1 |].
  split; [exact (proj1 (definition_needs_one_tab _) H1) |].
  split; [exact H2 |].
  exact (proj2 (proj2 (proj2 (definition_needs_one_tab newline) H2)
                 ∅ ["add rt, ra" +:+ tab +:+ "000001" +:+ newline] []
                 true ["add 1 2" +:+ newline])).
Defined.

(** ** The run *)

Lemma interpret_turn_frame (dict : gmap string string) (sev : severity)
    (text_line : string) (f g : files) :
  interpret_turn dict sev text_line (app_files f g) =
    match interpret_turn dict sev text_line g with
    | Next g' => Next (app_files f g')
    | Break => Break
    | Abort g' e => Abort (app_files f g') e
    end.
Proof.
  rewrite !interpret_turn_eq. cbv zeta.
  destruct (stops text_line); [reflexivity |].
  destruct (calculate _ _) as [binary|e]; [| reflexivity].
  destruct (diagnostic sev binary text_line) as [record|e];
    unfold app_files, write_data, write_output; simpl;
    now rewrite <- ?List.app_assoc.
Qed.

Lemma interpret_loop_frame (dict : gmap string string) (sev : severity)
    (source_file : list string) :
  forall f g,
    interpret_loop dict sev source_file (app_files f g) =
      (app_files f (interpret_loop dict sev source_file g).1,
       (interpret_loop dict sev source_file g).2).
Proof.
  induction source_file as [|l rest IH]; intros f g; [reflexivity |].
  rewrite !interpret_loop_cons, interpret_turn_frame.
  destruct (interpret_turn dict sev l g) as [g'| |g' e]; [apply IH | |];
    reflexivity.
Qed.

Lemma interpret_turn_stop (dict : gmap string string) (sev : severity)
    (text_line : string) (f : files) :
  interpret_turn dict sev text_line f = Break <-> stops text_line = true.
Proof.
  rewrite interpret_turn_eq. cbv zeta.
  destruct (stops text_line); [tauto |].
  destruct (calculate _ _) as [binary|e]; [| split; discriminate].
  destruct (diagnostic sev binary text_line); split; discriminate.
Qed.

(** X9. Runs compose.  When the run over the first lines of a source
    raised, or reached a line that stops it, the lines that follow change
    nothing; otherwise the run over the whole source is the run over the
    following lines, started on the files the first lines left. *)
Theorem run_composes (dict : gmap string string) (sev : severity)
    (first following : list string) (f f' : files) (outcome : option exn) :
  interpret_loop dict sev first f = (f', outcome) ->
  interpret_loop dict sev (first ++ following) f =
    match outcome with
    | Some e => (f', Some e)
    | None =>
        if existsb stops first then (f', None)
        else interpret_loop dict sev following f'
    end.
Proof.
  revert f. induction first as [|l rest IH]; intros f.
  - simpl. now intros [= <- <-].
  - rewrite <- app_comm_cons, !interpret_loop_cons. cbn [existsb].
    destruct (interpret_turn dict sev l f) as [g| |g e] eqn:Hturn.
    + destruct (stops l) eqn:Hstop.
      { pose proof (proj2 (interpret_turn_stop dict sev l f) Hstop). congruence. }
      apply IH.
    + apply interpret_turn_stop in Hturn. rewrite Hturn.
      now intros [= <- <-].
    + now intros [= <- <-].
Qed.

Lemma run_composes_witness :
  let first := ["add 1 2" +:+ newline] in
  let following := ["sub 3 4" +:+ newline] in
  let f' := Files ["00000000000000000000000010000010" +:+ newline]
              ["00000000000000000000000010000010" +:+ tab +:+ "add 1 2"
               +:+ newline] in
  interpret_loop ∅ (SevBool false) first (Files [] []) = (f', None) /\
  interpret_loop ∅ (SevBool false) (first ++ following) (Files [] [])
  = interpret_loop ∅ (SevBool false) following f'.
Proof.
  intros first following f'.
  assert (H : interpret_loop ∅ (SevBool false) first (Files [] []) = (f', None))
    by reflexivity.
  split; [exact H |].
  exact (run_composes ∅ (SevBool false) first following (Files [] []) f' None H).
Defined.

Lemma word_of_eq (dict : gmap string string) (text_line : string) :
  word_of dict text_line =
    let code := strip (before "//" (strip text_line)) in
    calculate (default fallback_opcode (dict !! before " " code))
      (split " " code).
Proof.
  unfold word_of. rewrite interpret_line_eq. cbn [bind].
  now rewrite item_0_split.
Qed.

Lemma interpret_input_cons (dict : gmap string string) (sev : severity)
    (text_line : string) (rest : list string) :
  interpret_input dict sev (text_line :: rest) =
    if stops text_line then (Files [] [], None)
    else
      match word_of dict text_line with
      | Raise e => (Files [] [], Some e)
      | Ok w =>
          match diagnostic sev w text_line with
          | Raise e => (Files [w +:+ newline] [], Some e)
          | Ok record =>
              (Files ((w +:+ newline) :: output_file (interpret_input dict sev rest).1)
                 (record :: data_object (interpret_input dict sev rest).1),
               (interpret_input dict sev rest).2)
          end
      end.
Proof.
  unfold interpret_input at 1. rewrite interpret_loop_cons, interpret_turn_eq.
  rewrite word_of_eq. cbv zeta.
  destruct (stops text_line); [reflexivity |].
  destruct (calculate _ _) as [w|e]; [| reflexivity].
  destruct (diagnostic sev w text_line) as [record|e]; [| reflexivity].
  change (write_data (write_output (Files [] []) (w +:+ newline)) record)
    with (app_files (Files [w +:+ newline] [record]) (Files [] [])).
  now rewrite interpret_loop_frame.
Qed.

(** X10. Lines added at the end of a source never change what the run
    wrote for the lines before them: the output and the records of the
    shorter source open those of the longer one. *)
Theorem earlier_output_is_kept (dict : gmap string string) (sev : severity)
    (first following : list string) :
  exists more_output more_records,
    output_file (interpret_input dict sev (first ++ following)).1
    = output_file (interpret_input dict sev first).1 ++ more_output /\
    data_object (interpret_input dict sev (first ++ following)).1
    = data_object (interpret_input dict sev first).1 ++ more_records.
Proof.
  induction first as [|l rest (o & d & Ho & Hd)].
  - simpl. eauto.
  - rewrite <- app_comm_cons, !interpret_input_cons.
    destruct (stops l); [exists [], []; split; reflexivity |].
    destruct (word_of dict l) as [w|e];
      [| exists [], []; split; reflexivity].
    destruct (diagnostic sev w l) as [record|e];
      [| exists [], []; split; reflexivity].
    exists o, d. cbn [fst output_file data_object].
    now rewrite Ho, Hd.
Qed.

(** X11. What the run writes follows the source line by line.  The
    n lines of the output are the words of the first n source lines, each
    with a newline, in order; none of these lines stops the run.  The
    records are those of the first lines too, as many as the output lines
    or one fewer (only at severity 2 can a record be missing).  When the
    run ends without an exception and no line stops it, every source line
    has its output line. *)
Theorem output_follows_source (dict : gmap string string) (sev : severity)
    (source_file : list string) :
  let f := (interpret_input dict sev source_file).1 in
  let n := length (output_file f) in
  let m := length (data_object f) in
  Forall2 (fun l o => exists w, word_of dict l = Ok w /\ o = w +:+ newline)
    (take n source_file) (output_file f) /\
  Forall2 (fun l d => exists w, word_of dict l = Ok w /\
                                diagnostic sev w l = Ok d)
    (take m source_file) (data_object f) /\
  Forall (fun l => stops l = false) (take n source_file) /\
  m <= n <= S m /\
  (severity_is_2 sev = false -> m = n) /\
  ((interpret_input dict sev source_file).2 = None ->
   Forall (fun l => stops l = false) source_file ->
   n = length source_file).
Proof.
  induction source_file as [|l rest IH]; cbv zeta.
  - simpl. repeat split; try constructor; auto.
  - rewrite interpret_input_cons.
    destruct (stops l) eqn:Hstop.
    { simpl. repeat split; try constructor; auto.
      intros _ Hall. inversion Hall; congruence. }
    destruct (word_of dict l) as [w|e] eqn:Hw.
    2: { simpl. repeat split; try constructor; auto. discriminate. }
    destruct (diagnostic sev w l) as [record|e] eqn:Hd.
    2: { simpl. repeat split; try constructor; eauto.
         - intros Hsev. rewrite diagnostic_plain in Hd by exact Hsev.
           discriminate.
         - discriminate. }
    cbv zeta in IH. destruct IH as (Hout & Hrec & Hns & Hmn & Hsev & Hall).
    cbn [fst snd output_file data_object length take].
    repeat split.
    + constructor; [eauto | exact Hout].
    + constructor; [eauto | exact Hrec].
    + constructor; [exact Hstop | exact Hns].
    + lia.
    + lia.
    + intros H. f_equal. now apply Hsev.
    + intros Hnone Hs. f_equal. inversion Hs; subst. now apply Hall.
Qed.

(** ** Tables of bit patterns *)

Lemma calculate_loop_inv (ops : list string) :
  forall acc b,
    calculate_loop acc ops = Ok b ->
    exists fields,
      Forall2 (fun op bits => operand_bits op = Ok bits) ops fields /\
      b = acc +:+ join fields.
Proof.
  induction ops as [|op ops IH]; intros acc b; simpl.
  - intros [= <-]. exists []. split; [constructor | now rewrite app_empty_r].
  - destruct (operand_bits op) as [bits|e] eqn:Hb; simpl; [|discriminate].
    intros H. destruct (IH _ _ H) as (fields & Hf & ->).
    exists (bits :: fields). split; [now constructor |].
    simpl. now rewrite app_assoc.
Qed.

Lemma calculate_bits (operation_code w : string) (operation : list string) :
  all_chars is_bit operation_code = true ->
  calculate operation_code operation = Ok w ->
  all_chars is_bit w = true /\ 32 <= String.length w.
Proof.
  intros Hcode. unfold calculate.
  destruct (calculate_loop operation_code (tl operation)) as [b|e] eqn:Hl;
    simpl; [| discriminate].
  intros [= <-]. destruct (calculate_loop_inv _ _ _ Hl) as (fields & Hf & ->).
  split; [| rewrite zfill_length; lia].
  apply zfill_bits. rewrite all_chars_app, Hcode.
  now apply fields_all_bits in Hf.
Qed.

Lemma lookup_bits (dict : gmap string string) (mnemonic : string) :
  map_Forall (fun _ pattern => all_chars is_bit pattern = true) dict ->
  all_chars is_bit (default fallback_opcode (dict !! mnemonic)) = true.
Proof.
  intros Hdict. destruct (dict !! mnemonic) as [p|] eqn:Hp; [| reflexivity].
  exact (Hdict _ _ Hp).
Qed.

Lemma diagnostic_bits (sev : severity) (w text_line : string) :
  all_chars is_bit w = true -> 32 <= String.length w ->
  exists record, diagnostic sev w text_line = Ok record.
Proof.
  intros Hbits Hlen. unfold diagnostic.
  destruct (severity_is_2 sev); [| eauto].
  rewrite int_of_bits; [eauto | exact Hbits |].
  intros ->. simpl in Hlen. lia.
Qed.

(** X12. With a table whose patterns are all made of 0 and 1, every
    word written is made of 0 and 1 and has at least 32 characters, its
    record is always written with it (the hexadecimal conversion cannot
    fail), and a line that raises leaves both files as they were: the
    only exception is the [ValueError] of an operand. *)
Theorem bit_table_turn (dict : gmap string string) (sev : severity)
    (text_line : string) (f : files) :
  map_Forall (fun _ pattern => all_chars is_bit pattern = true) dict ->
  match interpret_turn dict sev text_line f with
  | Next f' =>
      exists w record,
        word_of dict text_line = Ok w /\
        all_chars is_bit w = true /\ 32 <= String.length w /\
        diagnostic sev w text_line = Ok record /\
        f' = write_data (write_output f (w +:+ newline)) record
  | Break => stops text_line = true
  | Abort f' e => f' = f /\ e = ValueError
  end.
Proof.
  intros Hdict. rewrite interpret_turn_eq. cbv zeta.
  destruct (stops text_line) eqn:Hstop; [reflexivity |].
  pose proof (word_of_eq dict text_line) as Hword. cbv zeta in Hword.
  destruct (calculate _ _) as [w|e] eqn:Hcalc.
  - destruct (calculate_bits _ _ _ (lookup_bits _ _ Hdict) Hcalc) as [Hb Hl].
    destruct (diagnostic_bits sev w text_line Hb Hl) as [record Hrec].
    rewrite Hrec. exists w, record. repeat split; assumption.
  - split; [reflexivity |]. now apply calculate_raise in Hcalc.
Qed.

Lemma bit_table_turn_witness :
  let dict : gmap string string := <["add" := "000000"]> ∅ in
  map_Forall (fun _ pattern => all_chars is_bit pattern = true) dict /\
  match interpret_turn dict (SevInt 2) ("add 1 x" +:+ newline) (Files [] []) with
  | Next f' => False
  | Break => False
  | Abort f' e => f' = Files [] [] /\ e = ValueError
  end.
Proof.
  intros dict.
  assert (H : map_Forall (fun _ pattern => all_chars is_bit pattern = true) dict).
  { apply map_Forall_insert_2; [reflexivity | apply map_Forall_empty]. }
  split; [exact H |].
  exact (bit_table_turn dict (SevInt 2) ("add 1 x" +:+ newline) (Files [] []) H).
Defined.

(** ** The hexadecimal column *)

Lemma bits_value_bound (s : string) :
  (0 <= bits_value s 0 < 2 ^ Z.of_nat (String.length s))%Z.
Proof.
  induction s as [|c r IH]; [simpl; lia |].
  cbn [bits_value String.length]. rewrite bits_value_shift.
  rewrite Nat2Z.inj_succ, Z.pow_succ_r by lia.
  destruct (Ascii.eqb c "1"); lia.
Qed.

Lemma hex_of_bits_length (n : nat) :
  forall bs acc,
    length bs <= n ->
    String.length (hex_of_bits bs acc)
    = String.length acc + (length bs + 3) / 4.
Proof.
  induction n as [|n IH]; intros bs acc Hn.
  - destruct bs; [simpl; lia | simpl in Hn; lia].
  - destruct bs as [|b0 [|b1 [|b2 [|b3 r]]]]; try (simpl; lia).
    cbn [hex_of_bits]. rewrite IH by (simpl in Hn; lia).
    cbn [String.length length].
    replace (S (S (S (S (length r)))) + 3) with (length r + 3 + 1 * 4) by lia.
    rewrite Nat.div_add by lia. lia.
Qed.

Lemma pos_bits_length (p : positive) : length (pos_bits p) = Pos.size_nat p.
Proof. induction p as [p IH | p IH |]; simpl; congruence. Qed.

Lemma size_nat_below (n : nat) :
  forall p, (Z.pos p < 2 ^ Z.of_nat n)%Z -> Pos.size_nat p <= n.
Proof.
  induction n as [|n IH]; intros p H.
  - simpl in H. lia.
  - rewrite Nat2Z.inj_succ, Z.pow_succ_r in H by lia.
    destruct p as [q | q |]; simpl; [| | lia];
      apply le_n_S, IH; lia.
Qed.

Lemma format_0X_length (n : Z) :
  (0 <= n < 2 ^ 32)%Z -> String.length (format_0X 8 n) = 8.
Proof.
  intros [Hlo Hhi]. destruct n as [|p|p]; [reflexivity | | lia].
  unfold format_0X, hex_pos.
  pose proof (size_nat_below 32 p Hhi) as Hsize.
  rewrite length_app, length_zeros.
  rewrite (hex_of_bits_length (length (pos_bits p))) by lia.
  rewrite pos_bits_length. simpl String.length.
  assert ((Pos.size_nat p + 3) / 4 < 9).
  { apply Nat.Div0.div_lt_upper_bound. lia. }
  lia.
Qed.

(** X13. At severity 2 the record of a 32-bit word holds the word, a
    tab, [0x] and exactly eight characters (the hexadecimal digits of the
    value of the word, zero-filled), a tab and the source line. *)
Theorem hex_column_width (w text_line : string) :
  is_word32 w ->
  exists h,
    diagnostic (SevInt 2) w text_line
    = Ok (w +:+ tab +:+ "0x" +:+ h +:+ tab +:+ text_line) /\
    h = format_0X 8 (bits_value w 0) /\
    String.length h = 8.
Proof.
  intros [Hlen Hbits]. exists (format_0X 8 (bits_value w 0)).
  split; [| split; [reflexivity |]].
  - unfold diagnostic. change (severity_is_2 (SevInt 2)) with true. cbv iota.
    rewrite int_of_bits; [reflexivity | exact Hbits |].
    intros ->. discriminate Hlen.
  - apply format_0X_length.
    pose proof (bits_value_bound w) as H. now rewrite Hlen in H.
Qed.

Lemma hex_column_width_witness :
  is_word32 "00000000000000000000000010000010" /\
  exists h,
    diagnostic (SevInt 2) "00000000000000000000000010000010" "add 1 2"
    = Ok ("00000000000000000000000010000010" +:+ tab +:+ "0x" +:+ h +:+ tab
          +:+ "add 1 2") /\
    h = format_0X 8 (bits_value "00000000000000000000000010000010" 0) /\
    String.length h = 8.
Proof.
  assert (H : is_word32 "00000000000000000000000010000010").
  { split; reflexivity. }
  split; [exact H |].
  exact (hex_column_width "00000000000000000000000010000010" "add 1 2" H).
Defined.
